(** * Lucidata: the LLM query engine and the query runner

    A shallow embedding of
    - [llm_engine/src/llm_processor.py] (prompt builder, response parser),
    - [llm_engine/src/db_schema.py] (schema provider),
    - [query_runner/src/main.py] (the /execute-query endpoint),
    followed by the properties of the specification that concern them.

    Python [str] values are Rocq strings whose characters are the code
    points below 256; within that range the whitespace of [str.strip] and
    the decimal digits of [float] are exactly the ones listed below.
    Python floats are binary64 values, represented by [spec_float]. *)

From Stdlib Require Import String Ascii List ZArith Bool Lia.
From Stdlib Require Import Floats.SpecFloat.
Import ListNotations.
Open Scope string_scope.

(** ** Exceptions and results *)

Module Py.

(** The exception classes the three modules can meet.  All of them are
    subclasses of [Exception]. *)
Inductive exn : Type :=
| ValueError (msg : string)
| IndexError (msg : string)
| Psycopg2Error (msg : string)
| HTTPException (status_code : Z) (detail : string)
| OtherException (msg : string).

Inductive outcome (A : Type) : Type :=
| Return (a : A)
| Raise (e : exn).
Arguments Return {A} a.
Arguments Raise {A} e.

Definition bind {A B} (m : outcome A) (k : A -> outcome B) : outcome B :=
  match m with
  | Return a => k a
  | Raise e => Raise e
  end.

(** [try: m except ValueError: h] *)
Definition except_ValueError {A} (m : outcome A) (h : outcome A) : outcome A :=
  match m with
  | Raise (ValueError _) => h
  | _ => m
  end.

(** [l[i]] on a list *)
Definition getitem {A} (l : list A) (i : nat) : outcome A :=
  match nth_error l i with
  | Some a => Return a
  | None => Raise (IndexError "list index out of range")
  end.

End Py.

Declare Scope py_scope.
Delimit Scope py_scope with py.
Notation "x <- m ;; k" := (Py.bind m (fun x => k))
  (at level 61, m at next level, right associativity) : py_scope.

(** ** The [str] methods used by the sources *)

Module PyStr.

Definition code (c : ascii) : N := N_of_ascii c.

(** [c.isspace()] for a code point below 256. *)
Definition isspace (c : ascii) : bool :=
  let n := code c in
  ((9 <=? n) && (n <=? 13) || (28 <=? n) && (n <=? 32)
   || (n =? 133) || (n =? 160))%N.

Fixpoint lstrip (s : string) : string :=
  match s with
  | EmptyString => EmptyString
  | String c s' => if isspace c then lstrip s' else s
  end.

Fixpoint rstrip (s : string) : string :=
  match s with
  | EmptyString => EmptyString
  | String c s' =>
      match rstrip s' with
      | EmptyString => if isspace c then EmptyString else String c EmptyString
      | r => String c r
      end
  end.

(** [s.strip()] *)
Definition strip (s : string) : string := lstrip (rstrip s).

(** [s.startswith(p)] *)
Definition startswith (p s : string) : bool := String.prefix p s.
Arguments startswith : simpl never.

(** [sub in s] *)
Fixpoint contains (sub s : string) : bool :=
  startswith sub s ||
  match s with
  | EmptyString => false
  | String _ s' => contains sub s'
  end.

(** [c in s] for one character. *)
Fixpoint mem (c : ascii) (s : string) : bool :=
  match s with
  | EmptyString => false
  | String d s' => Ascii.eqb c d || mem c s'
  end.

(** Removes the first [n] characters. *)
Fixpoint drop (n : nat) (s : string) : string :=
  match n, s with
  | O, _ => s
  | S n', String _ s' => drop n' s'
  | S _, EmptyString => EmptyString
  end.

(** The text before and the text after the first occurrence of [sep], when
    there is one. *)
Fixpoint split_once (sep s : string) : option (string * string) :=
  if startswith sep s then Some (EmptyString, drop (String.length sep) s)
  else
    match s with
    | EmptyString => None
    | String c s' =>
        match split_once sep s' with
        | Some (a, b) => Some (String c a, b)
        | None => None
        end
    end.

(** [s.split(sep, 1)] *)
Definition split1 (sep s : string) : Py.outcome (list string) :=
  match sep with
  | EmptyString => Py.Raise (Py.ValueError "empty separator")
  | _ =>
      match split_once sep s with
      | Some (a, b) => Py.Return [a; b]
      | None => Py.Return [s]
      end
  end.

(** [sep.join(l)] *)
Fixpoint join (sep : string) (l : list string) : string :=
  match l with
  | [] => EmptyString
  | [x] => x
  | x :: l' => x ++ sep ++ join sep l'
  end.

(** Truth value of an optional string: [None] and the empty string are
    false. *)
Definition truthy (s : option string) : bool :=
  match s with
  | None | Some EmptyString => false
  | Some _ => true
  end.

(** [s.split(sep, 1)[1]] and [s.split(sep, 1)[0]] read off [split_once]. *)
Definition after_first (sep s : string) : option string :=
  match split_once sep s with
  | Some (_, b) => Some b
  | None => None
  end.

Definition up_to (sep s : string) : string :=
  match split_once sep s with
  | Some (a, _) => a
  | None => s
  end.

End PyStr.

(** ** The builtin [float(str)] *)

Module PyFloat.

Import PyStr.

Definition prec : Z := 53.
Definition emax : Z := 1024.

(** The binary64 value nearest to [m * 10^e] (ties to even), negated when
    [s] is set; overflow gives an infinity, underflow a zero. *)
Definition of_decimal (s : bool) (m : N) (e : Z) : spec_float :=
  match m with
  | N0 => S754_zero s
  | Npos p =>
      let num := (Zpos p * 10 ^ Z.max e 0)%Z in
      let den := (10 ^ Z.max (- e) 0)%Z in
      let '(q, e', l) := SFdiv_core_binary prec emax num 0 den 0 in
      binary_round_aux prec emax s q e' l
  end.

Definition zero : spec_float := S754_zero false.
Definition half : spec_float := S754_finite false 4503599627370496 (-53).
Definition one : spec_float := S754_finite false 4503599627370496 (-52).

(** [0.0 <= x <= 1.0] *)
Definition in_unit_interval (x : spec_float) : bool :=
  SFleb zero x && SFleb x one.

Definition is_digit (c : ascii) : bool :=
  let n := code c in ((48 <=? n) && (n <=? 57))%N.

Definition digit_value (c : ascii) : N := (code c - 48)%N.

(** Whitespace removed by [float] itself at both ends: U+0085 and U+00A0
    are first turned into spaces, then the C whitespace is skipped. *)
Definition isspace_c (c : ascii) : bool :=
  let n := code c in
  ((9 <=? n) && (n <=? 13) || (n =? 32) || (n =? 133) || (n =? 160))%N.

Fixpoint lskip (s : string) : string :=
  match s with
  | EmptyString => EmptyString
  | String c s' => if isspace_c c then lskip s' else s
  end.

Fixpoint rskip (s : string) : string :=
  match s with
  | EmptyString => EmptyString
  | String c s' =>
      match rskip s' with
      | EmptyString => if isspace_c c then EmptyString else String c EmptyString
      | r => String c r
      end
  end.

Definition underscore : ascii := "_"%char.

(** Underscores are allowed between two digits only, and are dropped. *)
Fixpoint remove_underscores (prev : ascii) (s : string) : option string :=
  match s with
  | EmptyString => if Ascii.eqb prev underscore then None else Some EmptyString
  | String c s' =>
      if Ascii.eqb c underscore then
        if is_digit prev then remove_underscores c s' else None
      else if Ascii.eqb prev underscore && negb (is_digit c) then None
      else
        match remove_underscores c s' with
        | Some r => Some (String c r)
        | None => None
        end
  end.

(** ASCII lower case, for the case-insensitive words [inf] and [nan]. *)
Definition lower (c : ascii) : ascii :=
  let n := code c in
  if ((65 <=? n) && (n <=? 90))%N then ascii_of_N (n + 32) else c.

Fixpoint lower_string (s : string) : string :=
  match s with
  | EmptyString => EmptyString
  | String c s' => String (lower c) (lower_string s')
  end.

(** Reads a run of digits: the number read so far, how many digits were
    read, and the rest of the text. *)
Fixpoint digits (acc : N) (count : nat) (s : string) : N * nat * string :=
  match s with
  | String c s' =>
      if is_digit c then digits (acc * 10 + digit_value c)%N (S count) s'
      else (acc, count, s)
  | EmptyString => (acc, count, s)
  end.

Definition sign (s : string) : bool * string :=
  match s with
  | String "-" s' => (true, s')
  | String "+" s' => (false, s')
  | _ => (false, s)
  end.

(** The exponent part: absent, or [e]/[E], an optional sign and at least
    one digit, up to the end of the text. *)
Definition exponent (s : string) : option Z :=
  match s with
  | EmptyString => Some 0%Z
  | String c s' =>
      if Ascii.eqb (lower c) "e"%char then
        let '(neg, s1) := sign s' in
        match digits 0 0 s1 with
        | (_, O, _) => None
        | (n, S _, EmptyString) => Some (if neg then (- Z.of_N n)%Z else Z.of_N n)
        | _ => None
        end
      else None
  end.

(** A decimal numeral without its sign: mantissa and power of ten. *)
Definition number (s : string) : option (N * Z) :=
  let '(ip, ni, s1) := digits 0 0 s in
  let '(m, nf, s2) :=
    match s1 with
    | String "." s1' => let '(m, nf, s2) := digits ip 0 s1' in (m, nf, s2)
    | _ => (ip, O, s1)
    end in
  match (ni + nf)%nat with
  | O => None
  | S _ =>
      match exponent s2 with
      | Some e => Some (m, (e - Z.of_nat nf)%Z)
      | None => None
      end
  end.

Definition parse (s : string) : option spec_float :=
  let '(neg, body) := sign s in
  let word := lower_string body in
  if String.eqb word "inf" || String.eqb word "infinity" then Some (S754_infinity neg)
  else if String.eqb word "nan" then Some S754_nan
  else
    match number body with
    | Some (m, e) => Some (of_decimal neg m e)
    | None => None
    end.

(** [float(s)] for a string [s]. *)
Definition float (s : string) : Py.outcome spec_float :=
  match remove_underscores "000"%char (lskip (rskip s)) with
  | Some t =>
      match parse t with
      | Some x => Py.Return x
      | None => Py.Raise (Py.ValueError "could not convert string to float")
      end
  | None => Py.Raise (Py.ValueError "could not convert string to float")
  end.

End PyFloat.

(** ** The schema dictionary shared by the provider and the prompt builder *)

Module Schema.

Record column : Type := { name : string; type : string; nullable : bool }.

(** A table entry is a dict; only its [columns] key is ever written or
    read. *)
Record table_info : Type := { columns : option (list column) }.

(** The schema dict, in insertion order. *)
Definition schema : Type := list (string * table_info).

(** [d[k] = v] on a dict kept in insertion order. *)
Fixpoint setitem {V} (k : string) (v : V) (d : list (string * V)) : list (string * V) :=
  match d with
  | [] => [(k, v)]
  | (k', v') :: d' =>
      if String.eqb k k' then (k', v) :: d' else (k', v') :: setitem k v d'
  end.

End Schema.

(** ** llm_engine/src/llm_processor.py *)

Module LlmProcessor.

Import PyStr Schema.
Local Open Scope py_scope.

Definition nl : string := String "010"%char EmptyString.
Definition dquote : string := String "034"%char EmptyString.

Definition format_table (entry : string * table_info) : string :=
  let '(table_name, info) := entry in
  let cols := match columns info with Some c => c | None => [] end in
  let columns_str :=
    join ", " (map (fun col => name col ++ " " ++ type col) cols) in
  "Table: " ++ table_name ++ " (" ++ columns_str ++ ")".

(** [if not db_schema] holds for [None] and for the empty dict. *)
Definition format_schema_for_prompt (db_schema : option schema) : string :=
  match db_schema with
  | None | Some [] => "No schema available."
  | Some tables => join nl (map format_table tables)
  end.

(** The f-string of the source, line by line. *)
Definition generate_prompt (query : string) (db_schema : option schema) : string :=
  let schema_str := format_schema_for_prompt db_schema in
  nl ++ "Given the following PostgreSQL database schema:" ++ nl
  ++ nl
  ++ schema_str ++ nl
  ++ nl
  ++ "Translate this natural language question into a valid SQL query:" ++ nl
  ++ dquote ++ query ++ dquote ++ nl
  ++ nl
  ++ "Return the answer in the following format:" ++ nl
  ++ "SQL: <the SQL query>" ++ nl
  ++ "EXPLANATION: <brief explanation of how the query works>" ++ nl
  ++ "CONFIDENCE: <a number from 0 to 1 indicating confidence>" ++ nl
  ++ nl
  ++ "Make sure the SQL is valid PostgreSQL syntax, contains no syntax errors, and would run correctly against the described database." ++ nl.

Definition SQL : string := "SQL:".
Definition EXPLANATION : string := "EXPLANATION:".
Definition CONFIDENCE : string := "CONFIDENCE:".

Definition fallback_query : string := "SELECT * FROM cars LIMIT 10;".

Record translation : Type :=
  { sql_query : string; explanation : option string; confidence : spec_float }.

(** The three steps and the fallback, in the order of the source; the
    warning logged when the fallback is taken is left out. *)
Definition parse_llm_response (response : string) : Py.outcome translation :=
  let sql : option string := None in
  let explanation : option string := None in
  let confidence := PyFloat.zero in
  sql <-
    (if contains SQL response then
       parts <- split1 SQL response ;;
       rest <- Py.getitem parts 1 ;;
       sql_parts <- split1 EXPLANATION rest ;;
       s <- Py.getitem sql_parts 0 ;;
       Py.Return (Some (strip s))
     else Py.Return sql) ;;
  explanation <-
    (if contains EXPLANATION response then
       parts <- split1 EXPLANATION response ;;
       rest <- Py.getitem parts 1 ;;
       explanation_parts <- split1 CONFIDENCE rest ;;
       s <- Py.getitem explanation_parts 0 ;;
       Py.Return (Some (strip s))
     else Py.Return explanation) ;;
  confidence <-
    (if contains CONFIDENCE response then
       parts <- split1 CONFIDENCE response ;;
       rest <- Py.getitem parts 1 ;;
       let confidence_str := strip rest in
       Py.except_ValueError (PyFloat.float confidence_str) (Py.Return PyFloat.half)
     else Py.Return confidence) ;;
  let sql :=
    if negb (truthy sql) then fallback_query
    else match sql with Some s => s | None => EmptyString end in
  Py.Return {| sql_query := sql; explanation := explanation; confidence := confidence |}.

(** The text a response is built from in the round-trip property, and
    what it means for a field to embed no marker. *)
Definition format_response (S E C : string) : string :=
  "SQL: " ++ S ++ nl ++ "EXPLANATION: " ++ E ++ nl ++ "CONFIDENCE: " ++ C.

Definition marker_free (s : string) : bool :=
  negb (contains SQL s) && negb (contains EXPLANATION s)
  && negb (contains CONFIDENCE s).

(** [response.find(marker)], when the marker is there. *)
Definition find (marker response : string) : option nat :=
  match split_once marker response with
  | Some (before, _) => Some (String.length before)
  | None => None
  end.

End LlmProcessor.

(** ** The three fields as [parse_llm_response] reads them

    Each is read from the whole response: the text after the first
    occurrence of its marker, cut at the first occurrence of the next
    marker where there is one. *)

Module Fields.

Import PyStr LlmProcessor.

Definition sql_text (response : string) : option string :=
  match after_first SQL response with
  | Some rest => Some (strip (up_to EXPLANATION rest))
  | None => None
  end.

Definition explanation_text (response : string) : option string :=
  match after_first EXPLANATION response with
  | Some rest => Some (strip (up_to CONFIDENCE rest))
  | None => None
  end.

Definition confidence_value (response : string) : spec_float :=
  match after_first CONFIDENCE response with
  | Some rest =>
      match PyFloat.float (strip rest) with
      | Py.Return x => x
      | Py.Raise _ => PyFloat.half
      end
  | None => PyFloat.zero
  end.

Definition or_fallback (sql : option string) : string :=
  match sql with
  | Some (String c s) => String c s
  | _ => fallback_query
  end.

End Fields.

(** ** The parsing algorithm as the specification words it

    Each step works on the remainder of the text left by the step before:
    a step that finds its marker consumes the text up to the end of the
    value it extracts. *)

Module SpecParser.

Import PyStr LlmProcessor.

(** One step: the extracted value, if the marker is there, and the
    remainder handed to the next step.  [next] is the marker that ends the
    value. *)
Definition step (marker next text : string) : option string * string :=
  match split_once marker text with
  | Some (_, rest) =>
      match split_once next rest with
      | Some (value, tail) => (Some value, next ++ tail)
      | None => (Some rest, EmptyString)
      end
  | None => (None, text)
  end.

(** The last step: everything after the marker, read as a number. *)
Definition confidence_step (text : string) : spec_float :=
  match split_once CONFIDENCE text with
  | Some (_, rest) =>
      match PyFloat.float (strip rest) with
      | Py.Return x => x
      | Py.Raise _ => PyFloat.half
      end
  | None => PyFloat.zero
  end.

Definition parse_by_remainder (raw : string) : translation :=
  let '(sql, rem1) := step SQL EXPLANATION raw in
  let '(expl, rem2) := step EXPLANATION CONFIDENCE rem1 in
  let conf := confidence_step rem2 in
  {| sql_query :=
       match option_map strip sql with
       | Some (String c s) => String c s
       | _ => fallback_query
       end;
     explanation := option_map strip expl;
     confidence := conf |}.

End SpecParser.

(** ** The database driver and the logger, as the sources use them

    A computation threads the trace of what it did and can raise.  The
    server decides what each driver call answers: the answer to a
    statement may depend on how many statements the connection has already
    run, so every sequence of successes and failures is covered. *)

Module Db.

Inductive event : Type :=
| Connected (dsn : string)
| CursorOpened
| Executed (query : string)
| CursorClosed
| ConnectionClosed
| Logged (level message : string).

(** A row as the driver returns it: the tuple of its values. *)
Definition row : Type := list string.

(** What a statement leaves on the cursor: the column names
    ([cursor.description]) and the rows, or nothing for a statement that
    returns no rows. *)
Record result_set : Type := { description : list string; rows : list row }.

Definition params : Type := list (string * string).

Record server : Type := {
  on_connect : string -> option Py.exn;
  on_cursor : option Py.exn;
  on_execute : nat -> string -> option params -> Py.outcome (option result_set)
}.

(** The process environment and the text [str(e)] of an exception. *)
Record runtime : Type := {
  DATABASE_URL : option string;
  str_exception : Py.exn -> string
}.

Record state : Type := {
  trace : list event;
  statements : nat;
  pending : option result_set
}.

Definition initial : state := {| trace := []; statements := 0; pending := None |}.

Definition M (A : Type) : Type := state -> Py.outcome A * state.

Definition ret {A} (a : A) : M A := fun st => (Py.Return a, st).
Definition raise {A} (e : Py.exn) : M A := fun st => (Py.Raise e, st).

Definition bind {A B} (m : M A) (k : A -> M B) : M B :=
  fun st =>
    match m st with
    | (Py.Return a, st') => k a st'
    | (Py.Raise e, st') => (Py.Raise e, st')
    end.

(** [try: m except Exception as e: h e] *)
Definition try_except {A} (m : M A) (h : Py.exn -> M A) : M A :=
  fun st =>
    match m st with
    | (Py.Raise e, st') => h e st'
    | r => r
    end.

Definition is_psycopg2_error (e : Py.exn) : bool :=
  match e with
  | Py.Psycopg2Error _ => true
  | _ => false
  end.

(** [try: m except psycopg2.Error as e: h e] *)
Definition try_except_psycopg2 {A} (m : M A) (h : Py.exn -> M A) : M A :=
  fun st =>
    match m st with
    | (Py.Raise e, st') =>
        if is_psycopg2_error e then h e st' else (Py.Raise e, st')
    | r => r
    end.

(** [try: m finally: f] *)
Definition try_finally {A} (m : M A) (f : M unit) : M A :=
  fun st =>
    match m st with
    | (r, st') =>
        match f st' with
        | (Py.Return _, st'') => (r, st'')
        | (Py.Raise e, st'') => (Py.Raise e, st'')
        end
    end.

Definition emit (ev : event) : M unit :=
  fun st =>
    (Py.Return tt,
     {| trace := (trace st ++ [ev])%list;
        statements := statements st;
        pending := pending st |}).

Definition log (level message : string) : M unit := emit (Logged level message).

(** [psycopg2.connect(dsn)] *)
Definition connect (srv : server) (dsn : string) : M unit :=
  match on_connect srv dsn with
  | Some e => raise e
  | None => emit (Connected dsn)
  end.

(** [conn.cursor()] *)
Definition cursor (srv : server) : M unit :=
  match on_cursor srv with
  | Some e => raise e
  | None => emit CursorOpened
  end.

(** [cursor.execute(query, vars)] *)
Definition execute (srv : server) (query : string) (vars : option params) : M unit :=
  fun st =>
    let st1 :=
      {| trace := (trace st ++ [Executed query])%list;
         statements := S (statements st);
         pending := None |} in
    match on_execute srv (statements st) query vars with
    | Py.Return r =>
        (Py.Return tt,
         {| trace := trace st1; statements := statements st1; pending := r |})
    | Py.Raise e => (Py.Raise e, st1)
    end.

(** [cursor.fetchall()] *)
Definition fetchall : M (list row) :=
  fun st =>
    match pending st with
    | Some r => (Py.Return (rows r), st)
    | None => (Py.Raise (Py.Psycopg2Error "no results to fetch"), st)
    end.

(** [cursor.description], with [None] read as no columns. *)
Definition description_of : M (option (list string)) :=
  fun st => (Py.Return (option_map description (pending st)), st).

Definition close_cursor : M unit := emit CursorClosed.
Definition close_connection : M unit := emit ConnectionClosed.

(** [for x in l: acc = body x acc] *)
Fixpoint for_each {A S} (l : list A) (body : A -> S -> M S) (acc : S) : M S :=
  match l with
  | [] => ret acc
  | x :: l' => bind (body x acc) (for_each l' body)
  end.

(** The calls to [connect] not yet matched by a call to [close] along a
    trace.  A connection whose object the interpreter frees is closed
    without such a call: that is accounted for in [Frame]. *)
Fixpoint open_connections (t : list event) : Z :=
  match t with
  | [] => 0
  | Connected _ :: t' => open_connections t' + 1
  | ConnectionClosed :: t' => open_connections t' - 1
  | _ :: t' => open_connections t'
  end.

(** A computation that leaves the number of open connections as it found
    it, and one that closes a connection exactly when it returns. *)
Definition quiet {A} (m : M A) : Prop :=
  forall st,
    open_connections (trace (snd (m st))) = open_connections (trace st).

Definition closing {A} (m : M A) : Prop :=
  forall st,
    match m st with
    | (Py.Return _, st') =>
        open_connections (trace st') = (open_connections (trace st) - 1)%Z
    | (Py.Raise _, st') =>
        open_connections (trace st') = open_connections (trace st)
    end.

End Db.

Declare Scope db_scope.
Delimit Scope db_scope with db.
Notation "x <- m ;; k" := (Db.bind m (fun x => k))
  (at level 61, m at next level, right associativity) : db_scope.
Notation "m ;;; k" := (Db.bind m (fun _ => k))
  (at level 61, right associativity) : db_scope.

(** ** llm_engine/src/db_schema.py *)

Module DbSchema.

Import PyStr Schema Db.
Local Open Scope db_scope.

Definition col (n t : string) (nu : bool) : column :=
  {| name := n; type := t; nullable := nu |}.

Definition get_hardcoded_schema : schema :=
  [("cars",
    {| columns := Some
         [ col "id" "integer" false;
           col "model" "varchar(50)" false;
           col "mpg" "numeric(5,1)" true;
           col "cyl" "integer" true;
           col "disp" "numeric(6,1)" true;
           col "hp" "integer" true;
           col "drat" "numeric(4,2)" true;
           col "wt" "numeric(5,3)" true;
           col "qsec" "numeric(5,2)" true;
           col "vs" "integer" true;
           col "am" "integer" true;
           col "gear" "integer" true;
           col "carb" "integer" true ] |})].

Definition nl : string := String "010"%char EmptyString.

Fixpoint spaces (n : nat) : string :=
  match n with
  | O => EmptyString
  | S n' => String " "%char (spaces n')
  end.

Definition tables_query : string :=
  nl ++ spaces 12 ++ "SELECT tablename FROM pg_catalog.pg_tables"
  ++ nl ++ spaces 12 ++ "WHERE schemaname = 'public';"
  ++ nl ++ spaces 8.

Definition columns_query (table_name : string) : string :=
  nl ++ spaces 16 ++ "SELECT column_name, data_type, is_nullable"
  ++ nl ++ spaces 16 ++ "FROM information_schema.columns"
  ++ nl ++ spaces 16 ++ "WHERE table_name = '" ++ table_name ++ "';"
  ++ nl ++ spaces 12.

(** [(table_name,) = r] *)
Definition unpack1 (r : row) : M string :=
  match r with
  | [a] => ret a
  | [] => raise (Py.ValueError "not enough values to unpack")
  | _ => raise (Py.ValueError "too many values to unpack")
  end.

(** [column_name, data_type, is_nullable = r] *)
Definition unpack3 (r : row) : M (string * string * string) :=
  match r with
  | [a; b; c] => ret (a, b, c)
  | _ :: _ :: _ :: _ :: _ => raise (Py.ValueError "too many values to unpack")
  | _ => raise (Py.ValueError "not enough values to unpack")
  end.

(** The body of the [try] block. *)
Definition fetch (srv : server) (db_url : string) : M schema :=
  connect srv db_url ;;;
  cursor srv ;;;
  execute srv tables_query None ;;;
  tables <- fetchall ;;
  schema <-
    for_each tables
      (fun r (schema : schema) =>
         table_name <- unpack1 r ;;
         execute srv (columns_query table_name) None ;;;
         cols <- fetchall ;;
         columns <-
           for_each cols
             (fun c (columns : list column) =>
                x <- unpack3 c ;;
                let '(column_name, data_type, is_nullable) := x in
                ret (columns
                     ++ [ {| name := column_name;
                             type := data_type;
                             nullable := String.eqb is_nullable "YES" |} ])%list)
             [] ;;
         ret (setitem table_name {| columns := Some columns |} schema))
      [] ;;
  close_connection ;;;
  ret schema.

Definition get_database_schema (rt : runtime) (srv : server) : M schema :=
  let db_url := DATABASE_URL rt in
  if negb (truthy db_url) then
    log "WARNING" "DATABASE_URL not set, using hardcoded schema" ;;;
    ret get_hardcoded_schema
  else
    try_except
      (fetch srv (match db_url with Some u => u | None => EmptyString end))
      (fun e =>
         log "ERROR" ("Error fetching database schema: " ++ str_exception rt e) ;;;
         ret get_hardcoded_schema).

End DbSchema.

(** ** query_runner/src/main.py *)

Module QueryRunner.

Import PyStr Schema Db.
Local Open Scope db_scope.

Record ExecuteQueryRequest : Type := {
  query : string;
  request_params : option params
}.

Record metadata : Type := {
  row_count : nat;
  query_execution_time_ms : option Z;
  column_names : list string
}.

Record ExecuteQueryResponse : Type := {
  results : list (list (string * string));
  response_metadata : metadata
}.

(** A row of a [RealDictCursor]: a dict from column name to value. *)
Definition dict_row (names : list string) (r : row) : list (string * string) :=
  fold_left (fun d (kv : string * string) => setitem (fst kv) (snd kv) d)
    (combine names r) [].

(** The statement, run and read inside the inner [try]. *)
Definition run_statement (srv : server) (request : ExecuteQueryRequest)
  : M ExecuteQueryResponse :=
  execute srv (query request)
    (Some (match request_params request with
           | Some (p :: ps) => p :: ps
           | _ => []
           end)) ;;;
  results <- fetchall ;;
  descr <- description_of ;;
  let names := match descr with Some d => d | None => [] end in
  let results_list := map (dict_row names) results in
  let metadata :=
    {| row_count := List.length results_list;
       query_execution_time_ms := None;
       column_names :=
         match descr with
         | Some (d :: ds) => d :: ds
         | _ => []
         end |} in
  ret {| results := results_list; response_metadata := metadata |}.

Definition execute_query (rt : runtime) (srv : server)
  (request : ExecuteQueryRequest) : M ExecuteQueryResponse :=
  try_except
    (let db_url := DATABASE_URL rt in
     if negb (truthy db_url) then
       raise (Py.HTTPException 500 "Database connection not configured")
     else
       connect srv (match db_url with Some u => u | None => EmptyString end) ;;;
       cursor srv ;;;
       log "INFO" ("Executing query: " ++ query request) ;;;
       try_finally
         (try_except_psycopg2
            (run_statement srv request)
            (fun e =>
               log "ERROR" ("Database query error: " ++ str_exception rt e) ;;;
               raise (Py.HTTPException 400
                        ("Query execution error: " ++ str_exception rt e))))
         (close_cursor ;;; close_connection))
    (fun e =>
       log "ERROR" ("Error executing query: " ++ str_exception rt e) ;;;
       raise (Py.HTTPException 500 ("Error: " ++ str_exception rt e))).

(** The status line the framework sends: 200 for a returned body, the
    exception's own code for an [HTTPException], 500 for anything else. *)
Definition http_status {A} (r : Py.outcome A) : Z :=
  match r with
  | Py.Return _ => 200
  | Py.Raise (Py.HTTPException code _) => code
  | Py.Raise _ => 500
  end.

End QueryRunner.

(** ** The completion client and the state of the engine

    The engine threads the database state and the list of completion
    requests it has sent.  The client decides what each request answers:
    the texts of the choices, or an exception. *)

Module Llm.

Record message : Type := { role : string; content : string }.

Record completion_request : Type := {
  model : string;
  messages : list message;
  temperature : spec_float;
  max_tokens : Z
}.

Record client : Type := {
  on_create : nat -> completion_request -> Py.outcome (list string)
}.

Record state : Type := {
  db : Db.state;
  calls : list completion_request
}.

Definition M (A : Type) : Type := state -> Py.outcome A * state.

Definition ret {A} (a : A) : M A := fun st => (Py.Return a, st).
Definition raise {A} (e : Py.exn) : M A := fun st => (Py.Raise e, st).

Definition bind {A B} (m : M A) (k : A -> M B) : M B :=
  fun st =>
    match m st with
    | (Py.Return a, st') => k a st'
    | (Py.Raise e, st') => (Py.Raise e, st')
    end.

(** [try: m except Exception as e: h e] *)
Definition try_except {A} (m : M A) (h : Py.exn -> M A) : M A :=
  fun st =>
    match m st with
    | (Py.Raise e, st') => h e st'
    | r => r
    end.

(** A computation on the database alone. *)
Definition lift_db {A} (m : Db.M A) : M A :=
  fun st =>
    match m (db st) with
    | (r, d) => (r, {| db := d; calls := calls st |})
    end.

(** A computation without effects. *)
Definition lift_py {A} (r : Py.outcome A) : M A := fun st => (r, st).

Definition log (level text : string) : M unit := lift_db (Db.log level text).

(** [openai.ChatCompletion.create(...)] followed by the reading of
    [response.choices]. *)
Definition create (api : client) (request : completion_request) : M (list string) :=
  fun st =>
    (on_create api (List.length (calls st)) request,
     {| db := db st; calls := (calls st ++ [request])%list |}).

End Llm.

Declare Scope llm_scope.
Delimit Scope llm_scope with llm.
Notation "x <- m ;; k" := (Llm.bind m (fun x => k))
  (at level 61, m at next level, right associativity) : llm_scope.
Notation "m ;;; k" := (Llm.bind m (fun _ => k))
  (at level 61, right associativity) : llm_scope.

(** ** llm_engine/src/llm_processor.py and llm_engine/src/main.py: the
    request pipeline *)

Module LlmEngine.

Import PyStr Schema LlmProcessor Llm.
Local Open Scope llm_scope.

Definition system_message : message :=
  {| role := "system";
     content := "You are a helpful assistant that translates natural language questions into SQL queries for a PostgreSQL database." |}.

(** The literal [0.1]. *)
Definition temperature_0_1 : spec_float :=
  S754_finite false 7205759403792794 (-56).

Definition call_llm_api (rt : Db.runtime) (api : client)
  (prompt model_name : string) : M string :=
  try_except
    (choices <-
       create api
         {| model := model_name;
            messages := [ system_message; {| role := "user"; content := prompt |} ];
            temperature := temperature_0_1;
            max_tokens := 500 |} ;;
     first <- lift_py (Py.getitem choices 0) ;;
     ret first)
    (fun e =>
       log "ERROR" ("Error calling LLM API: " ++ Db.str_exception rt e) ;;;
       raise e).

(** [os.getenv(name, default)] *)
Definition getenv_default (value : option string) (default : string) : string :=
  match value with
  | Some v => v
  | None => default
  end.

Definition process_natural_language_query (rt : Db.runtime)
  (LLM_MODEL : option string) (api : client)
  (query : string) (model : option string) (db_schema : option schema)
  : M translation :=
  let model_name :=
    if truthy model then match model with Some m => m | None => EmptyString end
    else getenv_default LLM_MODEL "gpt-4" in
  let prompt := generate_prompt query db_schema in
  try_except
    (response <- call_llm_api rt api prompt model_name ;;
     t <- lift_py (parse_llm_response response) ;;
     log "INFO"
       ("Processed query: '" ++ query ++ "' -> SQL: '" ++ sql_query t ++ "'") ;;;
     ret t)
    (fun e =>
       log "ERROR" ("Error processing query with LLM: " ++ Db.str_exception rt e) ;;;
       raise e).

Record QueryRequest : Type := {
  request_query : string;
  request_model : option string
}.

Definition process_query (rt : Db.runtime) (LLM_MODEL : option string)
  (srv : Db.server) (api : client) (request : QueryRequest) : M translation :=
  try_except
    (db_schema <- lift_db (DbSchema.get_database_schema rt srv) ;;
     result <-
       process_natural_language_query rt LLM_MODEL api
         (request_query request) (request_model request) (Some db_schema) ;;
     ret result)
    (fun e =>
       log "ERROR" ("Error processing query: " ++ Db.str_exception rt e) ;;;
       raise (Py.HTTPException 500
                ("Error processing query: " ++ Db.str_exception rt e))).

(** The completion request sent for a question, a requested model and a
    schema. *)
Definition request_for (LLM_MODEL : option string) (request : QueryRequest)
  (db_schema : schema) : completion_request :=
  {| model :=
       match request_model request with
       | Some (String c m) => String c m
       | _ => getenv_default LLM_MODEL "gpt-4"
       end;
     messages :=
       [ system_message;
         {| role := "user";
            content := generate_prompt (request_query request) (Some db_schema) |} ];
     temperature := temperature_0_1;
     max_tokens := 500 |}.

End LlmEngine.

(** ** pandas and pyplot, as the formatter uses them

    A frame is known by what the formatter asks of it; the plotting
    library decides what each call answers, and the calls are recorded in
    the order they are made. *)

Module Plot.

(** What [format_data] and [generate_visualization] read off a frame. *)
Record frame : Type := {
  empty : bool;
  columns : list string;
  numeric_columns : Py.outcome (list string);
  to_csv : Py.outcome string;
  to_json : Py.outcome string;
  to_html : Py.outcome string
}.

Inductive call : Type :=
| Figure
| DfPlot (kind : string) (x y labels : option string)
| Title (text : string)
| TightLayout
| Savefig
| Close.

Record library : Type := {
  DataFrame : list (list (string * string)) -> Py.outcome frame;
  on_call : nat -> call -> option Py.exn;
  image : nat -> string;
  b64encode : string -> string;
  str_exception : Py.exn -> string
}.

Record state : Type := {
  calls : list call;
  logged : list (string * string)
}.

Definition initial : state := {| calls := []; logged := [] |}.

Definition M (A : Type) : Type := state -> Py.outcome A * state.

Definition ret {A} (a : A) : M A := fun st => (Py.Return a, st).
Definition raise {A} (e : Py.exn) : M A := fun st => (Py.Raise e, st).

Definition bind {A B} (m : M A) (k : A -> M B) : M B :=
  fun st =>
    match m st with
    | (Py.Return a, st') => k a st'
    | (Py.Raise e, st') => (Py.Raise e, st')
    end.

(** [try: m except Exception as e: h e] *)
Definition try_except {A} (m : M A) (h : Py.exn -> M A) : M A :=
  fun st =>
    match m st with
    | (Py.Raise e, st') => h e st'
    | r => r
    end.

Definition lift {A} (r : Py.outcome A) : M A := fun st => (r, st).

Definition log (level text : string) : M unit :=
  fun st =>
    (Py.Return tt,
     {| calls := calls st; logged := (logged st ++ [(level, text)])%list |}).

(** One call into the plotting library. *)
Definition invoke (lib : library) (c : call) : M unit :=
  fun st =>
    let st' := {| calls := (calls st ++ [c])%list; logged := logged st |} in
    match on_call lib (List.length (calls st)) c with
    | Some e => (Py.Raise e, st')
    | None => (Py.Return tt, st')
    end.

(** [plt.savefig(buffer, format='png')] and [buffer.getvalue()] *)
Definition savefig (lib : library) : M string :=
  fun st =>
    match invoke lib Savefig st with
    | (Py.Return _, st') => (Py.Return (image lib (List.length (calls st))), st')
    | (Py.Raise e, st') => (Py.Raise e, st')
    end.

End Plot.

Declare Scope plot_scope.
Delimit Scope plot_scope with plot.
Notation "x <- m ;; k" := (Plot.bind m (fun x => k))
  (at level 61, m at next level, right associativity) : plot_scope.
Notation "m ;;; k" := (Plot.bind m (fun _ => k))
  (at level 61, right associativity) : plot_scope.

(** ** response_formatter/src/main.py *)

Module Formatter.

Import PyStr Plot.
Local Open Scope plot_scope.

(** [c.lower()] for a code point below 256. *)
Definition lower_char (c : ascii) : ascii :=
  let n := code c in
  if ((65 <=? n) && (n <=? 90) || (192 <=? n) && (n <=? 214)
      || (216 <=? n) && (n <=? 222))%N
  then ascii_of_N (n + 32) else c.

(** [s.lower()] *)
Fixpoint lower (s : string) : string :=
  match s with
  | EmptyString => EmptyString
  | String c s' => String (lower_char c) (lower s')
  end.

Record FormatterRequest : Type := {
  data : list (list (string * string));
  format : string;
  visualization_type : option string;
  title : option string;
  description : option string
}.

Record FormatterResponse : Type := {
  formatted_data : string;
  visualization : option string;
  content_type : string
}.

Definition text_of (s : option string) : string :=
  match s with
  | Some t => t
  | None => EmptyString
  end.

(** The body of the [try] block up to the early [return None]: the chart
    drawn, or nothing to draw. *)
Definition draw (lib : library) (df : frame) (viz_type : string) : M bool :=
  if String.eqb viz_type "bar" then
    match columns df with
    | c0 :: c1 :: _ => invoke lib (DfPlot "bar" (Some c0) (Some c1) None)
    | _ => invoke lib (DfPlot "bar" None None None)
    end ;;;
    ret true
  else if String.eqb viz_type "line" then
    invoke lib (DfPlot "line" None None None) ;;;
    ret true
  else
    match String.eqb viz_type "pie", columns df with
    | true, c0 :: c1 :: _ =>
        invoke lib (DfPlot "pie" None (Some c1) (Some c0)) ;;;
        ret true
    | _, _ =>
        numeric_cols <- lift (numeric_columns df) ;;
        match numeric_cols with
        | n0 :: _ =>
            invoke lib (DfPlot "bar" None (Some n0) None) ;;;
            ret true
        | [] => ret false
        end
    end.

Definition generate_visualization (lib : library) (df : frame)
  (viz_type : string) (title : option string) : M (option string) :=
  try_except
    (invoke lib Figure ;;;
     drawn <- draw lib df viz_type ;;
     if negb drawn then ret None
     else
       (if truthy title then invoke lib (Title (text_of title)) else ret tt) ;;;
       invoke lib TightLayout ;;;
       png <- savefig lib ;;
       let image_base64 := b64encode lib png in
       invoke lib Close ;;;
       ret (Some ("data:image/png;base64," ++ image_base64)))
    (fun e =>
       log "ERROR" ("Error generating visualization: " ++ str_exception lib e) ;;;
       ret None).

Definition nl : string := String "010"%char EmptyString.
Definition dquote : string := String "034"%char EmptyString.

Fixpoint spaces (n : nat) : string :=
  match n with
  | O => EmptyString
  | S n' => String " "%char (spaces n')
  end.

(** The f-string around the HTML table. *)
Definition html_wrapper (title description : option string) (html_table : string)
  : string :=
  nl ++ spaces 12 ++ "<div class=" ++ dquote ++ "lucidata-result" ++ dquote ++ ">"
  ++ nl ++ spaces 16
  ++ (if truthy title then "<h3>" ++ text_of title ++ "</h3>" else EmptyString)
  ++ nl ++ spaces 16
  ++ (if truthy description then "<p>" ++ text_of description ++ "</p>"
      else EmptyString)
  ++ nl ++ spaces 16 ++ html_table
  ++ nl ++ spaces 12 ++ "</div>"
  ++ nl ++ spaces 12.

Definition format_data (lib : library) (request : FormatterRequest)
  : M FormatterResponse :=
  try_except
    (df <- lift (DataFrame lib (data request)) ;;
     if empty df then
       ret {| formatted_data := "No data to format";
              visualization := None;
              content_type := "text/plain" |}
     else
       rendered <-
         (if String.eqb (lower (format request)) "csv" then
            formatted_data <- lift (to_csv df) ;;
            ret (formatted_data, "text/csv")
          else if String.eqb (lower (format request)) "json" then
            formatted_data <- lift (to_json df) ;;
            ret (formatted_data, "application/json")
          else
            html_table <- lift (to_html df) ;;
            ret (html_wrapper (title request) (description request) html_table,
                 "text/html")) ;;
       visualization <-
         (if truthy (visualization_type request) then
            generate_visualization lib df (text_of (visualization_type request))
              (title request)
          else ret None) ;;
       ret {| formatted_data := fst rendered;
              visualization := visualization;
              content_type := snd rendered |})
    (fun e =>
       log "ERROR" ("Error formatting data: " ++ str_exception lib e) ;;;
       raise (Py.HTTPException 500
                ("Error formatting data: " ++ str_exception lib e))).

End Formatter.

(** ** Connections when a call has ended

    In the two services a connection is held by a local variable of the
    function that opened it (and by the cursor, another local of the same
    function), and by nothing else: no function returns or stores it.
    CPython frees the locals of a frame as soon as the function has
    returned, and psycopg2 closes a connection whose object is freed.  A
    function left by an exception keeps its frame, and so its locals, for
    as long as the exception, whose traceback refers to the frame, lives. *)

Module Frame.

Import Db.

(** The driver calls made so far, and how many connections were closed by
    the freeing of their object rather than by a call to [close]. *)
Record world : Type := { driver : state; freed : Z }.

(** The connections that are open. *)
Definition live (w : world) : Z :=
  (open_connections (trace (driver w)) - freed w)%Z.

(** The connections a body opened and did not close by a call. *)
Definition unclosed {A} (body : M A) (st : state) : Z :=
  Z.max 0
    (open_connections (trace (snd (body st))) - open_connections (trace st)).

(** A call of a function whose body is [body], as its caller finds it: when
    the function returns, the connections it still holds are freed with
    its frame; when it raises, the frame is kept. *)
Definition call {A} (body : M A) : world -> Py.outcome A * world :=
  fun w =>
    match body (driver w) with
    | (Py.Return a, st') =>
        (Py.Return a,
         {| driver := st'; freed := (freed w + unclosed body (driver w))%Z |})
    | (Py.Raise e, st') => (Py.Raise e, {| driver := st'; freed := freed w |})
    end.

End Frame.

(** ** Whitespace-only text *)

Module PyText.

(** Every character of [s] is whitespace ([s] may be empty). *)
Fixpoint all_whitespace (s : string) : bool :=
  match s with
  | EmptyString => true
  | String c s' => PyStr.isspace c && all_whitespace s'
  end.

(** A character that occurs in none of the three markers. *)
Definition off_marker (c : ascii) : bool :=
  negb (PyStr.mem c LlmProcessor.SQL)
  && negb (PyStr.mem c LlmProcessor.EXPLANATION)
  && negb (PyStr.mem c LlmProcessor.CONFIDENCE).

End PyText.

(** ** Catalog answers and the schema read from them *)

Module Catalog.

Import Schema Db.

(** The rows of the two catalog reads: one name, and name, type and the
    text of [is_nullable]. *)
Definition row1 (t : string) : row := [t].
Definition row3 (r : string * string * string) : row :=
  [fst (fst r); snd (fst r); snd r].

(** The column entry the provider builds from a row of the second read. *)
Definition column_of (r : string * string * string) : column :=
  {| name := fst (fst r); type := snd (fst r);
     nullable := String.eqb (snd r) "YES" |}.

(** Table names are unique and every table has its list of columns. *)
Definition well_keyed (s : schema) : Prop :=
  NoDup (map fst s)
  /\ Forall (fun e => exists cols, columns (snd e) = Some cols) s.

End Catalog.

(** ** What a computation adds to the trace *)

Module Trace.

Import Db.

(** [m] only appends to the trace, and every event it appends satisfies
    [P]. *)
Definition emits {A} (P : event -> Prop) (m : M A) : Prop :=
  forall st,
    exists evs, trace (snd (m st)) = (trace st ++ evs)%list /\ Forall P evs.

(** The statements the schema provider may run: its two catalog reads. *)
Definition catalog_read (ev : event) : Prop :=
  match ev with
  | Executed q =>
      q = DbSchema.tables_query \/ exists t, q = DbSchema.columns_query t
  | Connected _ | CursorOpened | ConnectionClosed | Logged _ _ => True
  | CursorClosed => False
  end.

End Trace.

(** * Properties *)

(** ** Strings *)

Module PyStrFacts.

Import PyStr.

Lemma append_nil_r (s : string) : s ++ "" = s.
Proof. induction s as [|c s IH]; simpl; congruence. Qed.

Lemma append_assoc (a b c : string) : (a ++ b) ++ c = a ++ b ++ c.
Proof. induction a as [|x a IH]; simpl; congruence. Qed.

Lemma startswith_nil (s : string) : startswith "" s = true.
Proof. destruct s; reflexivity. Qed.

Lemma startswith_cons (c d : ascii) (p s : string) :
  startswith (String c p) (String d s) = Ascii.eqb c d && startswith p s.
Proof.
  unfold startswith; simpl.
  destruct (Ascii.eqb_spec c d) as [->|ne].
  - destruct (ascii_dec d d); [reflexivity | congruence].
  - destruct (ascii_dec c d); [congruence | reflexivity].
Qed.

Lemma startswith_app (p s : string) : startswith p (p ++ s) = true.
Proof.
  induction p as [|c p IH]; simpl.
  - apply startswith_nil.
  - rewrite startswith_cons, Ascii.eqb_refl. exact IH.
Qed.

Lemma startswith_inv (p s : string) :
  startswith p s = true -> s = p ++ drop (String.length p) s.
Proof.
  revert s; induction p as [|c p IH]; intros s H.
  - reflexivity.
  - destruct s as [|d s]; [discriminate|].
    rewrite startswith_cons in H. apply andb_true_iff in H as [Hc Hp].
    apply Ascii.eqb_eq in Hc; subst d. simpl. f_equal. auto.
Qed.

Lemma drop_app (p s : string) : drop (String.length p) (p ++ s) = s.
Proof. induction p as [|c p IH]; simpl; auto. Qed.

(** A prefix match that reaches past [u] uses the character after [u]. *)
Lemma startswith_across (p u : string) (c : ascii) (t : string) :
  startswith p (u ++ String c t) = true ->
  startswith p u = true \/ mem c p = true.
Proof.
  revert u; induction p as [|d p IH]; intros u H.
  - left; apply startswith_nil.
  - destruct u as [|x u]; simpl in H.
    + rewrite startswith_cons in H. apply andb_true_iff in H as [Hc _].
      right; simpl. apply Ascii.eqb_eq in Hc; subst.
      rewrite Ascii.eqb_refl; reflexivity.
    + rewrite startswith_cons in H. apply andb_true_iff in H as [Hc Hp].
      destruct (IH _ Hp) as [Hu|Hm].
      * left. rewrite startswith_cons, Hc, Hu; reflexivity.
      * right. simpl. rewrite Hm. apply orb_true_r.
Qed.

Lemma contains_cons (sub : string) (c : ascii) (s : string) :
  contains sub (String c s) = startswith sub (String c s) || contains sub s.
Proof. reflexivity. Qed.

Lemma contains_false_cons (sub : string) (c : ascii) (s : string) :
  contains sub (String c s) = false ->
  startswith sub (String c s) = false /\ contains sub s = false.
Proof. rewrite contains_cons. apply orb_false_iff. Qed.

(** [split_once] cuts the text around an occurrence of the separator. *)
Lemma split_once_sound (sep s a b : string) :
  split_once sep s = Some (a, b) -> s = a ++ sep ++ b.
Proof.
  revert a b; induction s as [|c s IH]; intros a b H; simpl in H.
  - destruct (startswith sep "") eqn:E; [|discriminate].
    injection H as <- <-. apply (startswith_inv _ _ E).
  - destruct (startswith sep (String c s)) eqn:E.
    + injection H as <- <-. apply (startswith_inv _ _ E).
    + destruct (split_once sep s) as [[a' b']|]; [|discriminate].
      injection H as <- <-. simpl. f_equal. auto.
Qed.

(** It is the first occurrence: no other cut has a shorter left part. *)
Lemma split_once_least (sep s a b a' b' : string) :
  split_once sep s = Some (a, b) -> s = a' ++ sep ++ b' ->
  String.length a <= String.length a'.
Proof.
  revert a b a'; induction s as [|c s IH]; intros a b a' H E; simpl in H.
  - destruct (startswith sep ""); [|discriminate].
    injection H as <- <-. apply Nat.le_0_l.
  - destruct (startswith sep (String c s)) eqn:P.
    + injection H as <- <-. apply Nat.le_0_l.
    + destruct (split_once sep s) as [[x y]|] eqn:R; [|discriminate].
      injection H as <- <-.
      destruct a' as [|d a'].
      * simpl in E. rewrite E, startswith_app in P. discriminate.
      * simpl in E. injection E as -> E. simpl.
        apply le_n_S. eapply IH; eauto.
Qed.

Lemma split_once_here (sep s : string) :
  split_once sep (sep ++ s) = Some ("", s).
Proof.
  assert (E : split_once sep (sep ++ s)
              = if startswith sep (sep ++ s)
                then Some ("", drop (String.length sep) (sep ++ s))
                else None).
  { destruct (sep ++ s) eqn:A; cbn [split_once]; [reflexivity|].
    rewrite <- A, startswith_app. reflexivity. }
  rewrite E, startswith_app, drop_app. reflexivity.
Qed.

Lemma contains_split_once (sep s : string) :
  contains sep s = match split_once sep s with Some _ => true | None => false end.
Proof.
  induction s as [|c s IH].
  - simpl. destruct (startswith sep ""); reflexivity.
  - rewrite contains_cons. simpl split_once.
    destruct (startswith sep (String c s)); [reflexivity|].
    simpl. rewrite IH. destruct (split_once sep s) as [[? ?]|]; reflexivity.
Qed.

Lemma contains_app (sub a b : string) : contains sub (a ++ sub ++ b) = true.
Proof.
  induction a as [|c a IH].
  - simpl append. destruct (sub ++ b) eqn:E.
    + simpl. rewrite <- E, startswith_app. reflexivity.
    + rewrite contains_cons, <- E, startswith_app. reflexivity.
  - simpl append. rewrite contains_cons, IH. apply orb_true_r.
Qed.

Lemma contains_spec (sub s : string) :
  contains sub s = true <-> exists a b, s = a ++ sub ++ b.
Proof.
  split.
  - rewrite contains_split_once.
    destruct (split_once sub s) as [[a b]|] eqn:E; [|discriminate].
    intros _. exists a, b. now apply split_once_sound.
  - intros (a & b & ->). apply contains_app.
Qed.

(** Skipping a stretch that holds no occurrence and ends in a character
    foreign to the separator. *)
Lemma split_once_skip (sep a : string) (c : ascii) (t : string) :
  contains sep a = false -> mem c sep = false ->
  split_once sep (a ++ String c t) =
  match split_once sep t with
  | Some (x, y) => Some (a ++ String c x, y)
  | None => None
  end.
Proof.
  intros Ha Hc.
  assert (Hno : forall u, contains sep u = false ->
                 startswith sep (u ++ String c t) = false).
  { intros u Hu. destruct (startswith sep (u ++ String c t)) eqn:E; [|reflexivity].
    destruct (startswith_across _ _ _ _ E) as [H|H]; [|congruence].
    destruct u; simpl in Hu; apply orb_false_iff in Hu as [Hu _]; congruence. }
  induction a as [|x a IH].
  - pose proof (Hno "" Ha) as E. cbn [append] in *.
    cbn [split_once]. rewrite E. reflexivity.
  - apply contains_false_cons in Ha as Ha'. destruct Ha' as [_ Ha'].
    pose proof (Hno (String x a) Ha) as E. cbn [append] in *.
    cbn [split_once]. rewrite E, (IH Ha').
    destruct (split_once sep t) as [[? ?]|]; reflexivity.
Qed.

Lemma split_once_skip_char (sep : string) (c : ascii) (t : string) :
  contains sep "" = false -> mem c sep = false ->
  split_once sep (String c t) =
  match split_once sep t with
  | Some (x, y) => Some (String c x, y)
  | None => None
  end.
Proof. intros H0 Hc. exact (split_once_skip sep "" c t H0 Hc). Qed.

(** An occurrence found past [x] is found in what follows [x]. *)
Lemma split_once_past (sep x y p q : string) :
  split_once sep (x ++ y) = Some (x ++ p, q) -> split_once sep y = Some (p, q).
Proof.
  induction x as [|c x IH]; intros H.
  - exact H.
  - simpl in H. destruct (startswith sep (String c (x ++ y))); [discriminate|].
    destruct (split_once sep (x ++ y)) as [[a b]|] eqn:E; [|discriminate].
    injection H as -> ->. auto.
Qed.

Lemma rstrip_cons_space (w : ascii) (s : string) :
  isspace w = true -> lstrip (rstrip (String w s)) = lstrip (rstrip s).
Proof.
  intros H; simpl. destruct (rstrip s) as [|d r].
  - now rewrite H.
  - simpl. now rewrite H.
Qed.

Lemma rstrip_snoc_space (s : string) (w : ascii) :
  isspace w = true -> rstrip (s ++ String w "") = rstrip s.
Proof.
  intros H; induction s as [|c s IH]; simpl.
  - now rewrite H.
  - now rewrite IH.
Qed.

Lemma strip_cons_space (w : ascii) (s : string) :
  isspace w = true -> strip (String w s) = strip s.
Proof. apply rstrip_cons_space. Qed.

Lemma strip_snoc_space (s : string) (w : ascii) :
  isspace w = true -> strip (s ++ String w "") = strip s.
Proof. intros H; unfold strip. now rewrite rstrip_snoc_space. Qed.

Lemma contains_here (sub b : string) : contains sub (sub ++ b) = true.
Proof. exact (contains_app sub "" b). Qed.

Lemma contains_append_r (sub a t : string) :
  contains sub t = true -> contains sub (a ++ t) = true.
Proof.
  intros H. apply contains_spec in H as (x & y & ->).
  rewrite <- append_assoc. apply contains_app.
Qed.

End PyStrFacts.

(** ** The response parser *)

Module ParserFacts.

Import PyStr PyStrFacts LlmProcessor Fields.

(** [float] raises nothing but [ValueError]. *)
Lemma float_cases (s : string) :
  (exists x, PyFloat.float s = Py.Return x) \/
  (exists msg, PyFloat.float s = Py.Raise (Py.ValueError msg)).
Proof.
  unfold PyFloat.float.
  destruct (PyFloat.remove_underscores _ _) as [t|]; [|right; eauto].
  destruct (PyFloat.parse t); [left|right]; eauto.
Qed.

Lemma split1_getitem_1 (sep s : string) :
  sep <> "" ->
  Py.bind (split1 sep s) (fun parts => Py.getitem parts 1) =
  match split_once sep s with
  | Some (_, b) => Py.Return b
  | None => Py.Raise (Py.IndexError "list index out of range")
  end.
Proof.
  intros H. unfold split1. destruct sep as [|c0 sep0]; [congruence|].
  destruct (split_once _ s) as [[x y]|]; reflexivity.
Qed.

Lemma split1_getitem_0 (sep s : string) :
  sep <> "" ->
  Py.bind (split1 sep s) (fun parts => Py.getitem parts 0) = Py.Return (up_to sep s).
Proof.
  intros H. unfold split1, up_to. destruct sep as [|c0 sep0]; [congruence|].
  destruct (split_once _ s) as [[x y]|]; reflexivity.
Qed.

(** The parser never raises, and its three results are the three fields
    read from the whole response, the SQL replaced by the fallback when it
    is missing or empty. *)
Lemma parse_llm_response_eq (response : string) :
  parse_llm_response response =
  Py.Return {| sql_query := or_fallback (sql_text response);
               explanation := explanation_text response;
               confidence := confidence_value response |}.
Proof.
  unfold parse_llm_response, sql_text, explanation_text, confidence_value,
    after_first.
  rewrite !contains_split_once.
  assert (N1 : SQL <> "") by discriminate.
  assert (N2 : EXPLANATION <> "") by discriminate.
  assert (N3 : CONFIDENCE <> "") by discriminate.
  assert (S1 : forall sep s (k : string -> Py.outcome (option string)),
             sep <> "" ->
             Py.bind (split1 sep s)
               (fun parts => Py.bind (Py.getitem parts 1) k) =
             Py.bind (Py.bind (split1 sep s) (fun parts => Py.getitem parts 1)) k).
  { intros sep s k _. destruct (split1 sep s); reflexivity. }
  assert (S0 : forall sep s (k : string -> Py.outcome (option string)),
             Py.bind (split1 sep s)
               (fun parts => Py.bind (Py.getitem parts 0) k) =
             Py.bind (Py.bind (split1 sep s) (fun parts => Py.getitem parts 0)) k).
  { intros sep s k. destruct (split1 sep s); reflexivity. }
  assert (Sf : forall sep s (k : string -> Py.outcome spec_float),
             Py.bind (split1 sep s)
               (fun parts => Py.bind (Py.getitem parts 1) k) =
             Py.bind (Py.bind (split1 sep s) (fun parts => Py.getitem parts 1)) k).
  { intros sep s k. destruct (split1 sep s); reflexivity. }
  destruct (split_once SQL response) as [[a1 b1]|] eqn:E1;
  destruct (split_once EXPLANATION response) as [[a2 b2]|] eqn:E2;
  destruct (split_once CONFIDENCE response) as [[a3 b3]|] eqn:E3;
  repeat (rewrite ?S1, ?Sf, ?split1_getitem_1, ?E1, ?E2, ?E3 by assumption;
          cbn [Py.bind]);
  repeat (rewrite ?S0, ?split1_getitem_0 by assumption; cbn [Py.bind]);
  try (destruct (float_cases (strip b3)) as [[x ->]|[msg ->]]);
  cbn [Py.except_ValueError Py.bind];
  try (destruct (strip (up_to EXPLANATION b1)) as [|c s]);
  reflexivity.
Qed.

End ParserFacts.

(** ** Responses built by [format_response] *)

Module RoundTrip.

Import PyStr PyStrFacts LlmProcessor Fields.

Lemma marker_free_inv (s : string) :
  marker_free s = true ->
  contains SQL s = false /\ contains EXPLANATION s = false
  /\ contains CONFIDENCE s = false.
Proof.
  unfold marker_free. intros H.
  apply andb_true_iff in H as [H H3]. apply andb_true_iff in H as [H1 H2].
  repeat split; apply negb_true_iff; assumption.
Qed.

Lemma contains_skip (sep a : string) (c : ascii) (t : string) :
  contains sep a = false -> mem c sep = false -> contains sep t = false ->
  contains sep (a ++ String c t) = false.
Proof.
  intros Ha Hc Ht. rewrite contains_split_once in Ht |- *.
  rewrite split_once_skip by assumption.
  destruct (split_once sep t) as [[? ?]|]; [discriminate | reflexivity].
Qed.

(** The response of the round-trip property, with its markers apart. *)
Lemma format_response_eq (S E C : string) :
  format_response S E C =
  SQL ++ String " " (S ++ String "010"
    (EXPLANATION ++ String " " (E ++ String "010"
      (CONFIDENCE ++ String " " C)))).
Proof. reflexivity. Qed.

Lemma sql_text_format_response (S E C : string) :
  contains EXPLANATION S = false ->
  sql_text (format_response S E C) = Some (strip S).
Proof.
  intros H. unfold sql_text, after_first, up_to.
  rewrite format_response_eq, split_once_here.
  rewrite (split_once_skip_char EXPLANATION " ") by reflexivity.
  rewrite (split_once_skip EXPLANATION S "010") by (assumption || reflexivity).
  rewrite split_once_here. cbn [append].
  rewrite strip_cons_space by reflexivity.
  apply f_equal, strip_snoc_space. reflexivity.
Qed.

Lemma explanation_text_format_response (S E C : string) :
  contains EXPLANATION S = false -> contains CONFIDENCE E = false ->
  explanation_text (format_response S E C) = Some (strip E).
Proof.
  intros HS HE. unfold explanation_text, after_first, up_to.
  rewrite format_response_eq.
  rewrite (split_once_skip EXPLANATION SQL " ") by reflexivity.
  rewrite (split_once_skip EXPLANATION S "010") by (assumption || reflexivity).
  rewrite split_once_here.
  rewrite (split_once_skip_char CONFIDENCE " ") by reflexivity.
  rewrite (split_once_skip CONFIDENCE E "010") by (assumption || reflexivity).
  rewrite split_once_here. cbn [append].
  rewrite strip_cons_space by reflexivity.
  apply f_equal, strip_snoc_space. reflexivity.
Qed.

Lemma confidence_text_format_response (S E C : string) :
  contains CONFIDENCE S = false -> contains CONFIDENCE E = false ->
  after_first CONFIDENCE (format_response S E C) = Some (String " " C).
Proof.
  intros HS HE. unfold after_first. rewrite format_response_eq.
  rewrite (split_once_skip CONFIDENCE SQL " ") by reflexivity.
  rewrite (split_once_skip CONFIDENCE S "010") by (assumption || reflexivity).
  rewrite (split_once_skip CONFIDENCE EXPLANATION " ") by reflexivity.
  rewrite (split_once_skip CONFIDENCE E "010") by (assumption || reflexivity).
  rewrite split_once_here. reflexivity.
Qed.

End RoundTrip.

(** ** Responses whose markers come in the fixed order *)

Module Ordered.

Import PyStr PyStrFacts LlmProcessor Fields SpecParser.

(** Two cuts of the same text: the longer left part extends the shorter. *)
Lemma append_eq_split (a u b v : string) :
  a ++ u = b ++ v -> String.length a <= String.length b ->
  exists x, b = a ++ x /\ u = x ++ v.
Proof.
  revert b; induction a as [|c a IH]; intros b H L.
  - exists b. split; [reflexivity | exact H].
  - destruct b as [|d b]; [simpl in L; lia|].
    simpl in H. injection H as Hc Ht. subst d. simpl in L.
    destruct (IH b Ht) as (x & -> & ->); [lia|].
    exists x. split; reflexivity.
Qed.

Ltac peel H y :=
  let c := fresh "c" in
  let Hc := fresh "Hc" in
  destruct y as [|c y]; cbn [append] in H;
  [ try discriminate H | injection H as Hc H; subst c ].

(** An [EXPLANATION:] that starts after the start of a [SQL:] starts after
    its end. *)
Lemma explanation_clear_of_sql (x p q : string) :
  SQL ++ p = x ++ EXPLANATION ++ q -> x <> "" ->
  exists b, x = SQL ++ b /\ p = b ++ EXPLANATION ++ q.
Proof.
  unfold SQL, EXPLANATION. intros H N.
  destruct x as [|c x]; [congruence|]. cbn [append] in H.
  injection H as Hc H; subst c.
  do 3 peel H x.
  exists x. split; [reflexivity | exact H].
Qed.

(** The same for a [CONFIDENCE:] after an [EXPLANATION:]. *)
Lemma confidence_clear_of_explanation (y q d : string) :
  EXPLANATION ++ q = y ++ CONFIDENCE ++ d -> y <> "" ->
  exists c, y = EXPLANATION ++ c /\ q = c ++ CONFIDENCE ++ d.
Proof.
  unfold EXPLANATION, CONFIDENCE. intros H N.
  destruct y as [|c y]; [congruence|]. cbn [append] in H.
  injection H as Hc H; subst c.
  do 11 peel H y.
  exists y. split; [reflexivity | exact H].
Qed.

Lemma find_inv (marker raw : string) (i : nat) :
  find marker raw = Some i ->
  exists a b, split_once marker raw = Some (a, b)
              /\ String.length a = i /\ raw = a ++ marker ++ b.
Proof.
  unfold find. destruct (split_once marker raw) as [[a b]|] eqn:E; [|discriminate].
  intros [= <-]. exists a, b. repeat split. now apply split_once_sound.
Qed.

(** What the three first occurrences look like when they come in order. *)
Lemma ordered_shape (raw : string) (i j k : nat) :
  find SQL raw = Some i -> find EXPLANATION raw = Some j ->
  find CONFIDENCE raw = Some k -> i < j -> j < k ->
  exists a b c d,
    split_once SQL raw = Some (a, b ++ EXPLANATION ++ c ++ CONFIDENCE ++ d)
    /\ split_once EXPLANATION (b ++ EXPLANATION ++ c ++ CONFIDENCE ++ d)
       = Some (b, c ++ CONFIDENCE ++ d)
    /\ split_once EXPLANATION raw = Some (a ++ SQL ++ b, c ++ CONFIDENCE ++ d)
    /\ split_once CONFIDENCE (c ++ CONFIDENCE ++ d) = Some (c, d)
    /\ split_once CONFIDENCE raw
       = Some (a ++ SQL ++ b ++ EXPLANATION ++ c, d).
Proof.
  intros F1 F2 F3 Lij Ljk.
  destruct (find_inv _ _ _ F1) as (a & p & S1 & L1 & R1).
  destruct (find_inv _ _ _ F2) as (b' & q & S2 & L2 & R2).
  destruct (find_inv _ _ _ F3) as (c' & d & S3 & L3 & R3).
  destruct (append_eq_split a (SQL ++ p) b' (EXPLANATION ++ q)) as (x & -> & Hx);
    [congruence | lia |].
  destruct (explanation_clear_of_sql x p q Hx) as (b & -> & ->).
  { intros ->. rewrite append_nil_r in L2. lia. }
  destruct (append_eq_split (a ++ SQL ++ b) (EXPLANATION ++ q) c' (CONFIDENCE ++ d))
    as (y & -> & Hy); [congruence | lia |].
  destruct (confidence_clear_of_explanation y q d Hy) as (c & -> & ->).
  { intros ->. rewrite append_nil_r in L3. lia. }
  exists a, b, c, d.
  assert (S2' : split_once EXPLANATION (b ++ EXPLANATION ++ c ++ CONFIDENCE ++ d)
                = Some (b, c ++ CONFIDENCE ++ d)).
  { apply (split_once_past EXPLANATION SQL), (split_once_past EXPLANATION a).
    rewrite <- R1. exact S2. }
  assert (S3' : split_once CONFIDENCE (c ++ CONFIDENCE ++ d) = Some (c, d)).
  { apply (split_once_past CONFIDENCE EXPLANATION),
          (split_once_past CONFIDENCE (a ++ SQL ++ b)).
    rewrite <- R2. exact S3. }
  repeat split; try assumption.
  rewrite S3. now rewrite !append_assoc.
Qed.

End Ordered.

(** ** Literals read by [float] *)

Module PyFloatFacts.

Import PyFloat.

Example float_zero : float "0.0" = Py.Return zero.
Proof. reflexivity. Qed.

Example float_half : float "0.5" = Py.Return half.
Proof. reflexivity. Qed.

Example float_one : float "1" = Py.Return one.
Proof. reflexivity. Qed.

Example float_tenth :
  float " 0.1 " = Py.Return (S754_finite false 7205759403792794 (-56)).
Proof. reflexivity. Qed.

Example float_underscore : float "1_0" = float "10".
Proof. reflexivity. Qed.

Example float_nan : float "-NaN" = Py.Return S754_nan.
Proof. reflexivity. Qed.

Example float_overflow : float "1e400" = Py.Return (S754_infinity false).
Proof. reflexivity. Qed.

Example float_rejects_word :
  float "notanumber" = Py.Raise (Py.ValueError "could not convert string to float").
Proof. reflexivity. Qed.

Example float_rejects_empty :
  float "" = Py.Raise (Py.ValueError "could not convert string to float").
Proof. reflexivity. Qed.

Example unit_interval_bounds :
  in_unit_interval zero = true /\ in_unit_interval half = true
  /\ in_unit_interval one = true /\ in_unit_interval S754_nan = false
  /\ in_unit_interval (S754_zero true) = true.
Proof. repeat split. Qed.

End PyFloatFacts.

(** ** Connections along a computation *)

Module DbFacts.

Import Db DbSchema.
Local Open Scope Z_scope.

Lemma open_connections_snoc (t : list event) (ev : event) :
  open_connections (t ++ [ev]) =
  open_connections t
  + match ev with Connected _ => 1 | ConnectionClosed => -1 | _ => 0 end.
Proof.
  induction t as [|x t IH].
  - destruct ev; reflexivity.
  - cbn [app open_connections]. destruct x; rewrite IH; lia.
Qed.

Lemma quiet_ret {A} (a : A) : quiet (ret a).
Proof. intros st; reflexivity. Qed.

Lemma quiet_raise {A} (e : Py.exn) : quiet (@raise A e).
Proof. intros st; reflexivity. Qed.

Lemma quiet_bind {A B} (m : M A) (k : A -> M B) :
  quiet m -> (forall a, quiet (k a)) -> quiet (bind m k).
Proof.
  intros Hm Hk st. unfold bind. specialize (Hm st).
  destruct (m st) as [[a|e] st1]; cbn [snd] in *.
  - rewrite (Hk a st1). exact Hm.
  - exact Hm.
Qed.

Lemma quiet_log (level message : string) : quiet (log level message).
Proof. intros st. cbn. rewrite open_connections_snoc. lia. Qed.

Lemma quiet_cursor (srv : server) : quiet (cursor srv).
Proof.
  intros st. unfold cursor. destruct (on_cursor srv); cbn; [reflexivity|].
  rewrite open_connections_snoc. lia.
Qed.

Lemma quiet_execute (srv : server) (q : string) (vars : option params) :
  quiet (execute srv q vars).
Proof.
  intros st. unfold execute.
  destruct (on_execute srv (statements st) q vars); cbn;
    rewrite open_connections_snoc; lia.
Qed.

Lemma quiet_fetchall : quiet fetchall.
Proof. intros st. unfold fetchall. destruct (pending st); reflexivity. Qed.

Lemma quiet_for_each {A S} (l : list A) (body : A -> S -> M S) (acc : S) :
  (forall x s, quiet (body x s)) -> quiet (for_each l body acc).
Proof.
  intros Hb. revert acc; induction l as [|x l IH]; intros acc; cbn [for_each].
  - apply quiet_ret.
  - apply quiet_bind; [apply Hb | exact IH].
Qed.

Lemma quiet_unpack1 (r : row) : quiet (unpack1 r).
Proof. destruct r as [|a [|b r]]; intros st; reflexivity. Qed.

Lemma quiet_unpack3 (r : row) : quiet (unpack3 r).
Proof. destruct r as [|a [|b [|c [|d r]]]]; intros st; reflexivity. Qed.

Lemma closing_bind {A B} (m : M A) (k : A -> M B) :
  quiet m -> (forall a, closing (k a)) -> closing (bind m k).
Proof.
  intros Hm Hk st. unfold bind. specialize (Hm st).
  destruct (m st) as [[a|e] st1]; cbn [snd] in *.
  - specialize (Hk a st1). destruct (k a st1) as [[b|e] st2]; lia.
  - exact Hm.
Qed.

Lemma closing_close {A} (a : A) : closing (bind close_connection (fun _ => ret a)).
Proof. intros st. cbn. rewrite open_connections_snoc. lia. Qed.

(** The body of the [try] block calls [close] only when it runs to its
    end: after a failure that follows [connect] the call to [connect] is
    left unmatched. *)
Lemma fetch_connections (srv : server) (db_url : string) (st : state) :
  match fetch srv db_url st with
  | (Py.Return _, st') =>
      open_connections (trace st') = open_connections (trace st)
  | (Py.Raise _, st') =>
      open_connections (trace st') =
      open_connections (trace st)
      + match on_connect srv db_url with Some _ => 0 | None => 1 end
  end.
Proof.
  unfold fetch. unfold bind at 1. unfold connect.
  destruct (on_connect srv db_url) as [e|]; [cbn; lia|].
  cbn [emit].
  match goal with
  | |- context [bind (cursor srv) ?k ?s] =>
      assert (C : closing (bind (cursor srv) k)); [|specialize (C s)];
      [|destruct (bind (cursor srv) k s) as [[a|e] st']]
  end.
  - apply closing_bind; [apply quiet_cursor | intros _].
    apply closing_bind; [apply quiet_execute | intros _].
    apply closing_bind; [apply quiet_fetchall | intros tables].
    apply closing_bind; [|intros schema; apply closing_close].
    apply quiet_for_each. intros r schema.
    apply quiet_bind; [apply quiet_unpack1 | intros table_name].
    apply quiet_bind; [apply quiet_execute | intros _].
    apply quiet_bind; [apply quiet_fetchall | intros cols].
    apply quiet_bind; [|intros columns; apply quiet_ret].
    apply quiet_for_each. intros c columns.
    apply quiet_bind; [apply quiet_unpack3 | intros [[x y] z]; apply quiet_ret].
  - cbn [trace] in C. rewrite open_connections_snoc in C. lia.
  - cbn [trace] in C. rewrite open_connections_snoc in C. lia.
Qed.

(** The provider as a whole: the handler of the [except] clause calls no
    [close], so the call to [connect] stays unmatched whenever the body
    fails after it. *)
Lemma get_database_schema_connections (rt : runtime) (srv : server) (st : state)
  (url : string) (e : Py.exn) (st1 : state) :
  DATABASE_URL rt = Some url -> url <> EmptyString ->
  on_connect srv url = None ->
  fetch srv url st = (Py.Raise e, st1) ->
  open_connections (trace (snd (get_database_schema rt srv st))) =
  open_connections (trace st) + 1.
Proof.
  intros U N C F. unfold get_database_schema. rewrite U.
  destruct url as [|c url]; [congruence|]. cbn [PyStr.truthy negb].
  unfold try_except. pose proof (fetch_connections srv (String c url) st) as H.
  rewrite F, C in H. rewrite F. cbn. rewrite open_connections_snoc. lia.
Qed.

End DbFacts.

(** ** Status codes of the query runner *)

Module QueryRunnerFacts.

Import PyStr Db QueryRunner.

(** The inner handler's 400 never reaches the client: whenever the
    statement fails with a database error, the outer handler catches the
    [HTTPException] and the answer is a 500. *)
Lemma statement_error_is_answered_500 (rt : runtime) (srv : server)
  (request : ExecuteQueryRequest) (st : state) (url msg : string) :
  DATABASE_URL rt = Some url -> url <> "" ->
  on_connect srv url = None -> on_cursor srv = None ->
  (forall vars,
     on_execute srv (statements st) (query request) vars
     = Py.Raise (Py.Psycopg2Error msg)) ->
  http_status (fst (execute_query rt srv request st)) = 500%Z.
Proof.
  intros U N C K X. unfold execute_query. rewrite U.
  destruct url as [|c url]; [congruence|]. cbn [truthy negb].
  unfold try_except, bind at 1. unfold connect. rewrite C. cbn [emit].
  unfold bind at 1. unfold cursor. rewrite K. cbn [emit].
  unfold bind at 1. cbn [log emit].
  unfold try_finally, try_except_psycopg2, run_statement.
  cbn [trace statements pending].
  unfold bind at 1. unfold execute. cbn [trace statements pending].
  rewrite X. reflexivity.
Qed.

End QueryRunnerFacts.

(** ** The provider's connection when its call has ended *)

Module FrameFacts.

Import PyStr Db DbSchema Frame.
Local Open Scope Z_scope.

(** The calls to [close] the provider makes: every call to [connect] is
    matched, except when the body fails after it. *)
Lemma provider_close_calls (rt : runtime) (srv : server) (st : state) :
  open_connections (trace (snd (get_database_schema rt srv st))) =
  open_connections (trace st)
  + match DATABASE_URL rt with
    | Some (String c u) =>
        match on_connect srv (String c u), fetch srv (String c u) st with
        | None, (Py.Raise _, _) => 1
        | _, _ => 0
        end
    | _ => 0
    end.
Proof.
  unfold get_database_schema.
  destruct (DATABASE_URL rt) as [[|c u]|]; cbn [truthy negb].
  - cbn. rewrite DbFacts.open_connections_snoc. lia.
  - unfold try_except.
    pose proof (DbFacts.fetch_connections srv (String c u) st) as B.
    destruct (fetch srv (String c u) st) as [[s|e] st1].
    + cbn [snd]. rewrite B. destruct (on_connect srv (String c u)); lia.
    + cbn. rewrite DbFacts.open_connections_snoc, B.
      destruct (on_connect srv (String c u)); lia.
  - cbn. rewrite DbFacts.open_connections_snoc. lia.
Qed.

Lemma provider_returns (rt : runtime) (srv : server) (st : state) :
  exists s st', get_database_schema rt srv st = (Py.Return s, st').
Proof.
  unfold get_database_schema.
  destruct (negb (truthy (DATABASE_URL rt))); [eexists _, _; reflexivity|].
  unfold try_except.
  destruct (fetch srv _ st) as [[s|e] st1]; eexists _, _; reflexivity.
Qed.

(** What is left to the freeing of the frame: the one connection of a body
    that failed after [connect], nothing otherwise. *)
Lemma provider_unclosed (rt : runtime) (srv : server) (st : state) :
  unclosed (get_database_schema rt srv) st =
  match DATABASE_URL rt with
  | Some (String c u) =>
      match on_connect srv (String c u), fetch srv (String c u) st with
      | None, (Py.Raise _, _) => 1
      | _, _ => 0
      end
  | _ => 0
  end.
Proof.
  unfold unclosed. rewrite provider_close_calls.
  match goal with
  | |- Z.max 0 (?a + ?k - ?a) = _ => replace (a + k - a) with k by lia
  end.
  destruct (DATABASE_URL rt) as [[|c u]|]; try reflexivity.
  destruct (on_connect srv (String c u)); [reflexivity|].
  destruct (fetch srv (String c u) st) as [[s|e] st1]; reflexivity.
Qed.

(** The call as a whole: it returns, and what it did not close by a call is
    freed. *)
Lemma provider_call (rt : runtime) (srv : server) (w : world) :
  exists s st',
    get_database_schema rt srv (driver w) = (Py.Return s, st')
    /\ call (get_database_schema rt srv) w =
       (Py.Return s,
        {| driver := st';
           freed := freed w + unclosed (get_database_schema rt srv) (driver w) |}).
Proof.
  destruct (provider_returns rt srv (driver w)) as (s & st' & E).
  exists s, st'. split; [exact E|]. unfold call. now rewrite E.
Qed.

End FrameFacts.

(** * The claims of the specification *)

Import PyStr PyStrFacts LlmProcessor Fields.

(** ** Response parser *)

(** C1, as amended.  Round trip: when neither the SQL text [S] nor the
    explanation [E] embeds a marker, [S] is not empty once trimmed, and the
    text [C], once trimmed, is read by [float] as a number [c] of [[0,1]],
    parsing the response built from [S], [E] and [C] gives back the trimmed
    [S], the trimmed [E] and [c]. *)
Theorem round_trip_nonempty_sql (S E C : string) (c : spec_float) :
  marker_free S = true -> marker_free E = true ->
  strip S <> "" ->
  PyFloat.float (strip C) = Py.Return c ->
  PyFloat.in_unit_interval c = true ->
  parse_llm_response (format_response S E C) =
  Py.Return {| sql_query := strip S;
               explanation := Some (strip E);
               confidence := c |}.
Proof.
  intros HS HE NS HC _.
  apply RoundTrip.marker_free_inv in HS as (_ & HS2 & HS3).
  apply RoundTrip.marker_free_inv in HE as (_ & _ & HE3).
  rewrite ParserFacts.parse_llm_response_eq.
  rewrite RoundTrip.sql_text_format_response by assumption.
  rewrite RoundTrip.explanation_text_format_response by assumption.
  unfold confidence_value.
  rewrite RoundTrip.confidence_text_format_response by assumption.
  rewrite strip_cons_space by reflexivity. rewrite HC.
  unfold or_fallback. destruct (strip S); [congruence | reflexivity].
Qed.

Lemma round_trip_nonempty_sql_witness :
  parse_llm_response
    (format_response "SELECT COUNT(*) FROM cars WHERE hp > 200;"
       "Counts rows where hp exceeds 200." "0.9") =
  Py.Return {| sql_query := "SELECT COUNT(*) FROM cars WHERE hp > 200;";
               explanation := Some "Counts rows where hp exceeds 200.";
               confidence := S754_finite false 8106479329266893 (-53) |}.
Proof.
  apply (round_trip_nonempty_sql
           "SELECT COUNT(*) FROM cars WHERE hp > 200;"
           "Counts rows where hp exceeds 200." "0.9"
           (S754_finite false 8106479329266893 (-53))).
  - reflexivity.
  - reflexivity.
  - discriminate.
  - reflexivity.
  - reflexivity.
Defined.

(** C1, as stated, fails when the SQL text is empty: the parser returns the
    fallback statement, not the empty text. *)
Lemma round_trip_fails_for_empty_sql :
  marker_free "" = true /\ marker_free "e" = true
  /\ PyFloat.float (strip "0.5") = Py.Return PyFloat.half
  /\ PyFloat.in_unit_interval PyFloat.half = true
  /\ parse_llm_response (format_response "" "e" "0.5") =
     Py.Return {| sql_query := "SELECT * FROM cars LIMIT 10;";
                  explanation := Some "e";
                  confidence := PyFloat.half |}
  /\ parse_llm_response (format_response "" "e" "0.5") <>
     Py.Return {| sql_query := strip "";
                  explanation := Some (strip "e");
                  confidence := PyFloat.half |}.
Proof.
  repeat split; try reflexivity.
  vm_compute. discriminate.
Qed.

(** C2, as amended.  Every field is read from the whole response, not from
    a remainder; the result is the one of the remainder-based algorithm
    whenever the first occurrences of the three markers come in the order
    SQL, EXPLANATION, CONFIDENCE. *)
Theorem parse_agrees_with_remainder_in_order :
  (forall raw,
     parse_llm_response raw =
     Py.Return {| sql_query := or_fallback (sql_text raw);
                  explanation := explanation_text raw;
                  confidence := confidence_value raw |})
  /\
  (forall raw i j k,
     find SQL raw = Some i -> find EXPLANATION raw = Some j ->
     find CONFIDENCE raw = Some k -> i < j -> j < k ->
     parse_llm_response raw = Py.Return (SpecParser.parse_by_remainder raw)).
Proof.
  split; [exact ParserFacts.parse_llm_response_eq|].
  intros raw i j k F1 F2 F3 Lij Ljk.
  destruct (Ordered.ordered_shape raw i j k F1 F2 F3 Lij Ljk)
    as (a & b & c & d & S1 & S2 & S3 & S4 & S5).
  rewrite ParserFacts.parse_llm_response_eq.
  unfold SpecParser.parse_by_remainder, SpecParser.step,
    SpecParser.confidence_step, sql_text, explanation_text, confidence_value,
    after_first, up_to.
  rewrite S1, S2, S3, S4, S5, split_once_here, S4, split_once_here.
  reflexivity.
Qed.

Lemma parse_agrees_with_remainder_in_order_witness :
  parse_llm_response
    (format_response "SELECT 1;" "the constant one" "0.9") =
  Py.Return
    (SpecParser.parse_by_remainder
       (format_response "SELECT 1;" "the constant one" "0.9")).
Proof.
  apply (proj2 parse_agrees_with_remainder_in_order
           (format_response "SELECT 1;" "the constant one" "0.9") 0 15 45).
  - reflexivity.
  - reflexivity.
  - reflexivity.
  - apply Nat.ltb_lt; reflexivity.
  - apply Nat.ltb_lt; reflexivity.
Defined.

(** C2, as stated, fails when EXPLANATION comes before SQL: the explanation
    takes in the text that lies before the SQL marker, and the marker
    itself, where the remainder-based algorithm finds no explanation. *)
Lemma explanation_takes_text_before_sql_marker :
  parse_llm_response "EXPLANATION: foo SQL: bar" =
  Py.Return {| sql_query := "bar";
               explanation := Some "foo SQL: bar";
               confidence := PyFloat.zero |}
  /\ SpecParser.parse_by_remainder "EXPLANATION: foo SQL: bar" =
     {| sql_query := "bar"; explanation := None; confidence := PyFloat.zero |}
  /\ parse_llm_response "EXPLANATION: foo SQL: bar" <>
     Py.Return (SpecParser.parse_by_remainder "EXPLANATION: foo SQL: bar").
Proof.
  repeat split; try reflexivity.
  vm_compute. discriminate.
Qed.

(** C4, as amended.  The parser always returns.  Its confidence is 0.0
    without a CONFIDENCE marker, 0.5 when [float] cannot read the text after
    the first marker, and otherwise the number read, passed on as it is: it
    lies in [[0,1]] exactly when the number written after the marker, if
    there is one and it is readable, does. *)
Theorem confidence_in_unit_interval_iff (raw : string) :
  exists t,
    parse_llm_response raw = Py.Return t
    /\ (after_first CONFIDENCE raw = None -> confidence t = PyFloat.zero)
    /\ (forall rest,
          after_first CONFIDENCE raw = Some rest ->
          (forall x, PyFloat.float (strip rest) <> Py.Return x) ->
          confidence t = PyFloat.half)
    /\ (forall rest x,
          after_first CONFIDENCE raw = Some rest ->
          PyFloat.float (strip rest) = Py.Return x ->
          confidence t = x)
    /\ (PyFloat.in_unit_interval (confidence t) = true <->
        (forall rest x,
           after_first CONFIDENCE raw = Some rest ->
           PyFloat.float (strip rest) = Py.Return x ->
           PyFloat.in_unit_interval x = true)).
Proof.
  eexists. split; [apply ParserFacts.parse_llm_response_eq|].
  cbn [confidence]. unfold confidence_value.
  destruct (after_first CONFIDENCE raw) as [rest|].
  - destruct (PyFloat.float (strip rest)) as [x|e] eqn:F.
    + repeat split.
      * discriminate.
      * intros rest' [= <-] H. now destruct (H x).
      * intros rest' x' [= <-] F'. rewrite F in F'. now injection F' as <-.
      * intros H rest' x' [= <-] F'. rewrite F in F'. now injection F' as <-.
      * intros H. now apply (H rest x).
    + repeat split.
      * discriminate.
      * intros rest' x' [= <-] F'. rewrite F in F'. discriminate.
      * intros _ rest' x' [= <-] F'. rewrite F in F'. discriminate.
  - repeat split; intros; discriminate.
Qed.

Lemma confidence_in_unit_interval_iff_witness :
  exists t,
    parse_llm_response "SQL: SELECT 1; CONFIDENCE: 0.9" = Py.Return t
    /\ confidence t = S754_finite false 8106479329266893 (-53)
    /\ PyFloat.in_unit_interval (confidence t) = true.
Proof.
  destruct (confidence_in_unit_interval_iff "SQL: SELECT 1; CONFIDENCE: 0.9")
    as (t & E & _ & _ & V & I).
  exists t. split; [exact E|]. split.
  - apply (V " 0.9"); reflexivity.
  - apply I. intros rest x A F.
    injection A as <-. vm_compute in F. injection F as <-. reflexivity.
Defined.

(** C4, as stated, fails: a confidence of 5 is returned as 5.0. *)
Lemma confidence_five_is_out_of_range :
  parse_llm_response "CONFIDENCE: 5" =
  Py.Return {| sql_query := "SELECT * FROM cars LIMIT 10;";
               explanation := None;
               confidence := S754_finite false 5629499534213120 (-50) |}
  /\ PyFloat.in_unit_interval (S754_finite false 5629499534213120 (-50)) = false.
Proof. split; reflexivity. Qed.

(** C6.  A response without the SQL marker parses to the fixed fallback
    statement, whatever else it holds. *)
Theorem missing_sql_marker_gives_fallback (raw : string) :
  contains "SQL:" raw = false ->
  exists e c,
    parse_llm_response raw =
    Py.Return {| sql_query := "SELECT * FROM cars LIMIT 10;";
                 explanation := e;
                 confidence := c |}.
Proof.
  intros H. rewrite ParserFacts.parse_llm_response_eq.
  change "SQL:" with SQL in H. rewrite contains_split_once in H.
  unfold sql_text, after_first.
  destruct (split_once SQL raw) as [[a b]|]; [discriminate|].
  eexists _, _. reflexivity.
Qed.

Lemma missing_sql_marker_gives_fallback_witness :
  exists e c,
    parse_llm_response "EXPLANATION: no statement CONFIDENCE: 0.5" =
    Py.Return {| sql_query := "SELECT * FROM cars LIMIT 10;";
                 explanation := e;
                 confidence := c |}.
Proof.
  apply (missing_sql_marker_gives_fallback
           "EXPLANATION: no statement CONFIDENCE: 0.5").
  reflexivity.
Defined.

(** C7.  Confidence defaults: without a CONFIDENCE marker the confidence is
    exactly 0.0; with one whose following text [float] cannot read it is
    exactly 0.5. *)
Theorem confidence_default_split (raw : string) :
  exists t,
    parse_llm_response raw = Py.Return t
    /\ (contains "CONFIDENCE:" raw = false -> confidence t = PyFloat.zero)
    /\ (forall rest,
          after_first "CONFIDENCE:" raw = Some rest ->
          (forall x, PyFloat.float (strip rest) <> Py.Return x) ->
          confidence t = PyFloat.half).
Proof.
  eexists. split; [apply ParserFacts.parse_llm_response_eq|].
  cbn [confidence]. unfold confidence_value.
  change "CONFIDENCE:" with CONFIDENCE.
  rewrite contains_split_once. unfold after_first.
  destruct (split_once CONFIDENCE raw) as [[a b]|].
  - split; [discriminate|]. intros rest [= <-] H.
    destruct (PyFloat.float (strip b)) as [x|e]; [|reflexivity].
    now destruct (H x).
  - split; [reflexivity|]. intros rest H. discriminate.
Qed.

Lemma confidence_default_split_witness :
  (exists t, parse_llm_response "CONFIDENCE: notanumber" = Py.Return t
             /\ confidence t = PyFloat.half)
  /\ (exists t, parse_llm_response "SQL: SELECT 1;" = Py.Return t
                /\ confidence t = PyFloat.zero).
Proof.
  split.
  - destruct (confidence_default_split "CONFIDENCE: notanumber")
      as (t & E & _ & H).
    exists t. split; [exact E|].
    apply (H " notanumber"); [reflexivity|].
    intros x. vm_compute. discriminate.
  - destruct (confidence_default_split "SQL: SELECT 1;") as (t & E & H & _).
    exists t. split; [exact E|]. apply H. reflexivity.
Defined.

(** C10.  When the SQL marker is there but the text between it and the next
    EXPLANATION marker (or the end) is empty once trimmed, the fallback
    statement is returned. *)
Theorem empty_sql_gives_fallback (raw rest : string) :
  after_first "SQL:" raw = Some rest ->
  strip (up_to "EXPLANATION:" rest) = "" ->
  exists e c,
    parse_llm_response raw =
    Py.Return {| sql_query := "SELECT * FROM cars LIMIT 10;";
                 explanation := e;
                 confidence := c |}.
Proof.
  intros H1 H2. rewrite ParserFacts.parse_llm_response_eq.
  unfold sql_text. change "SQL:" with SQL in H1.
  change "EXPLANATION:" with EXPLANATION in H2.
  rewrite H1, H2. eexists _, _. reflexivity.
Qed.

Lemma empty_sql_gives_fallback_witness :
  exists e c,
    parse_llm_response "SQL:   EXPLANATION: nothing to run" =
    Py.Return {| sql_query := "SELECT * FROM cars LIMIT 10;";
                 explanation := e;
                 confidence := c |}.
Proof.
  apply (empty_sql_gives_fallback "SQL:   EXPLANATION: nothing to run"
           "   EXPLANATION: nothing to run").
  - reflexivity.
  - reflexivity.
Defined.

(** ** Prompt builder *)

(** C9.  With an empty or absent schema the prompt carries the text
    [No schema available.] where the table listing stands for any other
    schema, and it still carries the question. *)
Theorem empty_schema_prompt (question : string) (db_schema : option Schema.schema) :
  db_schema = None \/ db_schema = Some [] ->
  exists before after,
    (forall any_schema,
       generate_prompt question any_schema =
       before ++ format_schema_for_prompt any_schema ++ after)
    /\ generate_prompt question db_schema =
       before ++ "No schema available." ++ after
    /\ contains "No schema available." (generate_prompt question db_schema) = true
    /\ contains question (generate_prompt question db_schema) = true.
Proof.
  intros H.
  exists (nl ++ "Given the following PostgreSQL database schema:" ++ nl ++ nl).
  eexists. split; [|split; [|split]].
  - intros any_schema. unfold generate_prompt.
    rewrite !append_assoc. reflexivity.
  - destruct H as [-> | ->]; unfold generate_prompt; cbn [format_schema_for_prompt];
      rewrite !append_assoc; reflexivity.
  - destruct H as [-> | ->]; unfold generate_prompt; cbn [format_schema_for_prompt];
      do 4 apply contains_append_r; apply contains_here.
  - unfold generate_prompt.
    do 10 apply contains_append_r. apply contains_here.
Qed.

Lemma empty_schema_prompt_witness :
  contains "No schema available."
    (generate_prompt "How many cars have more than 200 horsepower?" (Some [])) = true
  /\ contains "How many cars have more than 200 horsepower?"
       (generate_prompt "How many cars have more than 200 horsepower?" (Some [])) = true.
Proof.
  destruct (empty_schema_prompt "How many cars have more than 200 horsepower?"
              (Some []) (or_intror eq_refl))
    as (before & after & _ & _ & H1 & H2).
  split; [exact H1 | exact H2].
Defined.


(** ** Schema provider *)

Import Db DbSchema.

(** C8.  The provider never raises.  With no connection string, with a
    connection that fails, with a catalog query that fails, and with any
    other failure of the body, it returns the hardcoded schema: the single
    table [cars] with its thirteen columns. *)
Theorem get_database_schema_never_raises (rt : runtime) (srv : server) (st : state) :
  (exists s st', get_database_schema rt srv st = (Py.Return s, st'))
  /\ (truthy (DATABASE_URL rt) = false ->
      fst (get_database_schema rt srv st) = Py.Return get_hardcoded_schema)
  /\ (forall url e,
        DATABASE_URL rt = Some url -> on_connect srv url = Some e ->
        fst (get_database_schema rt srv st) = Py.Return get_hardcoded_schema)
  /\ (forall url e,
        DATABASE_URL rt = Some url ->
        on_connect srv url = None -> on_cursor srv = None ->
        on_execute srv (statements st) tables_query None = Py.Raise e ->
        fst (get_database_schema rt srv st) = Py.Return get_hardcoded_schema)
  /\ (forall url e st',
        DATABASE_URL rt = Some url ->
        fetch srv url st = (Py.Raise e, st') ->
        fst (get_database_schema rt srv st) = Py.Return get_hardcoded_schema)
  /\ (exists cols,
        get_hardcoded_schema = [("cars", {| Schema.columns := Some cols |})]
        /\ map Schema.name cols =
           ["id"; "model"; "mpg"; "cyl"; "disp"; "hp"; "drat"; "wt"; "qsec";
            "vs"; "am"; "gear"; "carb"]).
Proof.
  assert (G : forall url e st',
             DATABASE_URL rt = Some url ->
             fetch srv url st = (Py.Raise e, st') ->
             fst (get_database_schema rt srv st) = Py.Return get_hardcoded_schema).
  { intros url e st' U F. unfold get_database_schema. rewrite U.
    destruct url as [|c url]; [reflexivity|]. cbn [truthy negb].
    unfold try_except. rewrite F. reflexivity. }
  split; [|split; [|split; [|split; [|split]]]].
  - unfold get_database_schema.
    destruct (negb (truthy (DATABASE_URL rt))); [eexists _, _; reflexivity|].
    unfold try_except.
    destruct (fetch srv _ st) as [[s|e] st1]; eexists _, _; reflexivity.
  - intros H. unfold get_database_schema. rewrite H. reflexivity.
  - intros url e U C. apply (G url e st U).
    unfold fetch. unfold bind at 1. unfold connect. rewrite C. reflexivity.
  - intros url e U C K X.
    apply (G url e
             {| trace := ((trace st ++ [Connected url]) ++ [CursorOpened])
                           ++ [Executed tables_query];
                statements := S (statements st);
                pending := None |} U).
    unfold fetch. unfold bind at 1. unfold connect. rewrite C. cbn [emit].
    unfold bind at 1. unfold cursor. rewrite K. cbn [emit].
    unfold bind at 1. unfold execute. cbn [statements trace]. rewrite X.
    reflexivity.
  - exact G.
  - eexists. split; reflexivity.
Qed.

Lemma get_database_schema_never_raises_witness :
  fst (get_database_schema
         {| DATABASE_URL := Some "postgresql://db/lucidata";
            str_exception := fun _ => "connection refused" |}
         {| on_connect := fun _ => Some (Py.Psycopg2Error "connection refused");
            on_cursor := None;
            on_execute := fun _ _ _ => Py.Return None |}
         initial)
  = Py.Return get_hardcoded_schema.
Proof.
  refine (proj1 (proj2 (proj2
            (get_database_schema_never_raises _ _ initial)))
            "postgresql://db/lucidata" (Py.Psycopg2Error "connection refused")
            _ _); reflexivity.
Defined.


(** A catalog query that fails on a reachable database: the provider makes
    no call to [close], and the connection is closed by the freeing of the
    frame; with a catalog that answers, it is closed by the call. *)
Example failing_fetch_is_closed_by_finalisation :
  let rt := {| DATABASE_URL := Some "postgresql://db/lucidata";
               str_exception := fun _ => "permission denied" |} in
  let failing := {| on_connect := fun _ => None;
                    on_cursor := None;
                    on_execute := fun _ _ _ =>
                      Py.Raise (Py.Psycopg2Error "permission denied") |} in
  let working := {| on_connect := fun _ => None;
                    on_cursor := None;
                    on_execute := fun _ _ _ =>
                      Py.Return (Some {| description := []; rows := [] |}) |} in
  let w0 := {| Frame.driver := initial; Frame.freed := 0 |} in
  fst (Frame.call (get_database_schema rt failing) w0)
  = Py.Return get_hardcoded_schema
  /\ trace (Frame.driver (snd (Frame.call (get_database_schema rt failing) w0))) =
     [ Connected "postgresql://db/lucidata"; CursorOpened;
       Executed tables_query;
       Logged "ERROR" "Error fetching database schema: permission denied" ]
  /\ Frame.freed (snd (Frame.call (get_database_schema rt failing) w0)) = 1%Z
  /\ Frame.live (snd (Frame.call (get_database_schema rt failing) w0)) = 0%Z
  /\ Frame.freed (snd (Frame.call (get_database_schema rt working) w0)) = 0%Z
  /\ Frame.live (snd (Frame.call (get_database_schema rt working) w0)) = 0%Z.
Proof. repeat split. Qed.

(** ** Query runner *)

Import QueryRunner.

(** C3 fails on the code: a malformed statement sent to a configured,
    reachable database is answered with status 500, although the handler of
    the database error raised a 400; the connection is closed. *)
Theorem execute_query_statement_error_answers_500 :
  let rt := {| DATABASE_URL := Some "postgresql://db/lucidata";
               str_exception := fun e =>
                 match e with
                 | Py.Psycopg2Error m => m
                 | Py.HTTPException _ d => d
                 | _ => ""
                 end |} in
  let srv := {| on_connect := fun _ => None;
                on_cursor := None;
                on_execute := fun _ _ _ =>
                  Py.Raise (Py.Psycopg2Error "syntax error at or near SELEC") |} in
  let request := {| query := "SELEC 1"; request_params := None |} in
  http_status (fst (execute_query rt srv request initial)) = 500%Z
  /\ trace (snd (execute_query rt srv request initial)) =
     [ Connected "postgresql://db/lucidata"; CursorOpened;
       Logged "INFO" "Executing query: SELEC 1";
       Executed "SELEC 1";
       Logged "ERROR" "Database query error: syntax error at or near SELEC";
       CursorClosed; ConnectionClosed;
       Logged "ERROR"
         "Error executing query: Query execution error: syntax error at or near SELEC" ].
Proof. split; reflexivity. Qed.

(** * Further properties of the code *)

(** ** Trimming and searching *)

Module TrimFacts.

Import PyStr PyStrFacts PyText.

Lemma lstrip_lstrip (s : string) : lstrip (lstrip s) = lstrip s.
Proof.
  induction s as [|c s IH]; [reflexivity|].
  simpl. destruct (isspace c) eqn:E; [exact IH|]. simpl. now rewrite E.
Qed.

Lemma rstrip_rstrip (s : string) : rstrip (rstrip s) = rstrip s.
Proof.
  induction s as [|c s IH]; [reflexivity|].
  simpl. destruct (rstrip s) as [|d r] eqn:R.
  - destruct (isspace c) eqn:E; [reflexivity|]. simpl. now rewrite E.
  - change (rstrip (String c (String d r))) with
      (match rstrip (String d r) with
       | EmptyString => if isspace c then EmptyString else String c EmptyString
       | x => String c x
       end).
    now rewrite IH.
Qed.

Lemma lstrip_rstrip_cons (c : ascii) (s : string) :
  isspace c = false -> lstrip (rstrip (String c s)) = rstrip (String c s).
Proof.
  intros E. cbn [rstrip].
  destruct (rstrip s); [rewrite E|]; cbn [lstrip]; now rewrite E.
Qed.

Lemma rstrip_lstrip (s : string) : rstrip (lstrip s) = lstrip (rstrip s).
Proof.
  induction s as [|c s IH]; [reflexivity|].
  destruct (isspace c) eqn:E.
  - rewrite rstrip_cons_space by assumption. simpl lstrip at 1. now rewrite E.
  - rewrite lstrip_rstrip_cons by assumption. simpl lstrip. now rewrite E.
Qed.

(** [strip] is idempotent. *)
Lemma strip_strip (s : string) : strip (strip s) = strip s.
Proof.
  unfold strip. rewrite (rstrip_lstrip (rstrip s)).
  now rewrite rstrip_rstrip, lstrip_lstrip.
Qed.

Lemma lstrip_suffix (s : string) : exists w, s = w ++ lstrip s.
Proof.
  induction s as [|c s [w IH]]; [now exists ""|].
  simpl. destruct (isspace c).
  - exists (String c w). simpl. now f_equal.
  - now exists "".
Qed.

Lemma rstrip_prefix (s : string) : exists w, s = rstrip s ++ w.
Proof.
  induction s as [|c s [w IH]]; [now exists ""|].
  simpl. destruct (rstrip s) as [|d r].
  - destruct (isspace c).
    + exists (String c w). simpl. now f_equal.
    + exists w. simpl. now f_equal.
  - exists w. simpl. now f_equal.
Qed.

(** The trimmed text sits inside the text. *)
Lemma strip_inside (s : string) : exists w w', s = w ++ strip s ++ w'.
Proof.
  unfold strip. destruct (rstrip_prefix s) as [w' E].
  destruct (lstrip_suffix (rstrip s)) as [w F].
  exists w, w'. rewrite <- append_assoc, <- F. exact E.
Qed.

Lemma contains_inside (sub w s w' : string) :
  contains sub s = true -> contains sub (w ++ s ++ w') = true.
Proof.
  intros H. apply contains_spec in H as (a & b & ->).
  apply contains_append_r. rewrite !append_assoc. apply contains_app.
Qed.

Lemma contains_strip (sub s : string) :
  contains sub (strip s) = true -> contains sub s = true.
Proof.
  intros H. destruct (strip_inside s) as (w & w' & E).
  rewrite E. now apply contains_inside.
Qed.

Lemma startswith_app_r (p u v : string) :
  startswith p u = true -> startswith p (u ++ v) = true.
Proof.
  intros H. rewrite (startswith_inv _ _ H), append_assoc.
  apply startswith_app.
Qed.

(** The text before the first occurrence holds no occurrence. *)
Lemma split_once_before_free (sep s a b : string) :
  sep <> "" -> split_once sep s = Some (a, b) -> contains sep a = false.
Proof.
  intros N. revert a b; induction s as [|c s IH]; intros a b H; cbn [split_once] in H.
  - destruct (startswith sep ""); [|discriminate].
    injection H as <- <-. destruct sep; [congruence | reflexivity].
  - destruct (startswith sep (String c s)) eqn:P.
    + injection H as <- <-. destruct sep; [congruence | reflexivity].
    + destruct (split_once sep s) as [[x y]|] eqn:R; [|discriminate].
      injection H as <- <-.
      rewrite contains_cons, (IH x y eq_refl), orb_false_r.
      destruct (startswith sep (String c x)) eqn:Q; [|reflexivity].
      apply split_once_sound in R. subst s.
      pose proof (startswith_app_r _ (String c x) (sep ++ y) Q) as Q'.
      cbn [append] in Q'. congruence.
Qed.

Lemma up_to_free (sep s : string) :
  sep <> "" -> contains sep (up_to sep s) = false.
Proof.
  intros N. unfold up_to.
  destruct (split_once sep s) as [[a b]|] eqn:E.
  - now apply (split_once_before_free sep s a b).
  - rewrite contains_split_once, E. reflexivity.
Qed.

Lemma drop_snoc (p s : string) (w : ascii) :
  startswith p s = true ->
  drop (String.length p) (s ++ String w "")
  = drop (String.length p) s ++ String w "".
Proof.
  intros H. rewrite (startswith_inv _ _ H) at 1.
  now rewrite append_assoc, !drop_app.
Qed.

(** A character foreign to the separator, added at the end, moves no
    occurrence. *)
Lemma split_once_snoc (sep s : string) (w : ascii) :
  sep <> "" -> mem w sep = false ->
  split_once sep (s ++ String w "") =
  match split_once sep s with
  | Some (a, b) => Some (a, b ++ String w "")
  | None => None
  end.
Proof.
  intros N W.
  assert (P : forall u, startswith sep (u ++ String w "") = startswith sep u).
  { intros u. destruct (startswith sep u) eqn:E.
    - now apply startswith_app_r.
    - destruct (startswith sep (u ++ String w "")) eqn:F; [|reflexivity].
      destruct (startswith_across _ _ _ _ F); congruence. }
  induction s as [|c s IH].
  - pose proof (P "") as P0. cbn [append] in *. cbn [split_once].
    rewrite P0. destruct sep as [|d sep]; [congruence|].
    reflexivity.
  - pose proof (P (String c s)) as Pc. cbn [append] in *. cbn [split_once].
    rewrite Pc. destruct (startswith sep (String c s)) eqn:E.
    + f_equal. f_equal.
      exact (drop_snoc sep (String c s) w E).
    + rewrite IH. destruct (split_once sep s) as [[a b]|]; reflexivity.
Qed.

Lemma isspace_off_marker (w : ascii) : isspace w = true -> off_marker w = true.
Proof.
  destruct w as [[] [] [] [] [] [] [] []]; intros H; try discriminate H;
    reflexivity.
Qed.

Lemma off_marker_inv (c : ascii) :
  off_marker c = true ->
  mem c LlmProcessor.SQL = false /\ mem c LlmProcessor.EXPLANATION = false
  /\ mem c LlmProcessor.CONFIDENCE = false.
Proof.
  unfold off_marker. intros H.
  apply andb_true_iff in H as [H H3]. apply andb_true_iff in H as [H1 H2].
  repeat split; apply negb_true_iff; assumption.
Qed.

End TrimFacts.

(** ** What the parser keeps and what it ignores *)

Module ParserMore.

Import PyStr PyStrFacts PyText TrimFacts LlmProcessor Fields.

Lemma or_fallback_nonempty (sql : option string) : or_fallback sql <> "".
Proof. destruct sql as [[|c s]|]; discriminate. Qed.

Lemma or_fallback_trimmed (s : string) :
  strip (or_fallback (Some (strip s))) = or_fallback (Some (strip s)).
Proof.
  unfold or_fallback. destruct (strip s) as [|c r] eqn:E; [reflexivity|].
  rewrite <- E. apply strip_strip.
Qed.

Lemma or_fallback_free (s : string) :
  contains EXPLANATION (strip (up_to EXPLANATION s)) = false ->
  contains EXPLANATION (or_fallback (Some (strip (up_to EXPLANATION s)))) = false.
Proof.
  intros H. unfold or_fallback.
  destruct (strip (up_to EXPLANATION s)) as [|c r]; [reflexivity | exact H].
Qed.

Lemma strip_up_to_free (sep s : string) :
  sep <> "" -> contains sep (strip (up_to sep s)) = false.
Proof.
  intros N. destruct (contains sep (strip (up_to sep s))) eqn:E; [|reflexivity].
  apply contains_strip in E. now rewrite up_to_free in E.
Qed.

(** A marker-free stretch closed by a character foreign to the markers
    hides nothing from the three searches. *)
Lemma fields_skip (pre : string) (c : ascii) (raw : string) :
  marker_free pre = true -> off_marker c = true ->
  sql_text (pre ++ String c raw) = sql_text raw
  /\ explanation_text (pre ++ String c raw) = explanation_text raw
  /\ confidence_value (pre ++ String c raw) = confidence_value raw.
Proof.
  intros HP HC.
  apply RoundTrip.marker_free_inv in HP as (P1 & P2 & P3).
  apply off_marker_inv in HC as (C1 & C2 & C3).
  unfold sql_text, explanation_text, confidence_value, after_first.
  rewrite !split_once_skip by assumption.
  repeat split.
  - destruct (split_once SQL raw) as [[a b]|]; reflexivity.
  - destruct (split_once EXPLANATION raw) as [[a b]|]; reflexivity.
  - destruct (split_once CONFIDENCE raw) as [[a b]|]; reflexivity.
Qed.

Lemma parse_skip (pre : string) (c : ascii) (raw : string) :
  marker_free pre = true -> off_marker c = true ->
  parse_llm_response (pre ++ String c raw) = parse_llm_response raw.
Proof.
  intros HP HC. rewrite !ParserFacts.parse_llm_response_eq.
  destruct (fields_skip pre c raw HP HC) as (-> & -> & ->). reflexivity.
Qed.

Lemma up_to_snoc (sep s : string) (w : ascii) :
  sep <> "" -> isspace w = true -> mem w sep = false ->
  strip (up_to sep (s ++ String w "")) = strip (up_to sep s).
Proof.
  intros N W M. unfold up_to. rewrite split_once_snoc by assumption.
  destruct (split_once sep s) as [[a b]|]; [reflexivity|].
  now apply strip_snoc_space.
Qed.

Lemma parse_snoc (raw : string) (w : ascii) :
  isspace w = true ->
  parse_llm_response (raw ++ String w "") = parse_llm_response raw.
Proof.
  intros W. pose proof (isspace_off_marker w W) as O.
  apply off_marker_inv in O as (C1 & C2 & C3).
  rewrite !ParserFacts.parse_llm_response_eq.
  unfold sql_text, explanation_text, confidence_value, after_first.
  rewrite !split_once_snoc by (assumption || discriminate).
  destruct (split_once SQL raw) as [[a1 b1]|];
  destruct (split_once EXPLANATION raw) as [[a2 b2]|];
  destruct (split_once CONFIDENCE raw) as [[a3 b3]|];
  rewrite ?up_to_snoc, ?strip_snoc_space by (assumption || discriminate);
  reflexivity.
Qed.

Lemma parse_leading (ws raw : string) :
  all_whitespace ws = true ->
  parse_llm_response (ws ++ raw) = parse_llm_response raw.
Proof.
  induction ws as [|w ws IH]; intros H; [reflexivity|].
  cbn [all_whitespace] in H. apply andb_true_iff in H as [W H].
  cbn [append]. rewrite <- (IH H).
  apply (parse_skip "" w (ws ++ raw) eq_refl).
  now apply isspace_off_marker.
Qed.

Lemma parse_trailing (ws raw : string) :
  all_whitespace ws = true ->
  parse_llm_response (raw ++ ws) = parse_llm_response raw.
Proof.
  revert raw; induction ws as [|w ws IH]; intros raw H.
  - now rewrite append_nil_r.
  - cbn [all_whitespace] in H. apply andb_true_iff in H as [W H].
    change (String w ws) with (String w "" ++ ws).
    rewrite <- append_assoc, IH by assumption.
    now apply parse_snoc.
Qed.

End ParserMore.

(** X1.  Whatever the response, the parser returns a statement that is not
    empty and carries no surrounding whitespace, and an explanation, when
    there is one, that carries none either. *)
Theorem parsed_sql_is_nonempty_and_trimmed (raw : string) :
  exists t,
    parse_llm_response raw = Py.Return t
    /\ sql_query t <> ""
    /\ strip (sql_query t) = sql_query t
    /\ (forall e, explanation t = Some e -> strip e = e).
Proof.
  eexists. split; [apply ParserFacts.parse_llm_response_eq|].
  cbn [sql_query explanation]. split; [apply ParserMore.or_fallback_nonempty|].
  split.
  - unfold sql_text. destruct (after_first SQL raw); [|reflexivity].
    apply ParserMore.or_fallback_trimmed.
  - unfold explanation_text. intros e H.
    destruct (after_first EXPLANATION raw); [|discriminate].
    injection H as <-. apply TrimFacts.strip_strip.
Qed.

(** X2.  The extracted statement never holds the EXPLANATION marker, and the
    extracted explanation never holds the CONFIDENCE marker: each value
    stops where the next field starts. *)
Theorem parsed_fields_stop_at_next_marker (raw : string) :
  exists t,
    parse_llm_response raw = Py.Return t
    /\ contains "EXPLANATION:" (sql_query t) = false
    /\ (forall e, explanation t = Some e -> contains "CONFIDENCE:" e = false).
Proof.
  eexists. split; [apply ParserFacts.parse_llm_response_eq|].
  cbn [sql_query explanation]. split.
  - unfold sql_text. destruct (after_first SQL raw) as [rest|]; [|reflexivity].
    apply ParserMore.or_fallback_free.
    apply ParserMore.strip_up_to_free. discriminate.
  - unfold explanation_text. intros e H.
    destruct (after_first EXPLANATION raw) as [rest|]; [|discriminate].
    injection H as <-.
    apply (ParserMore.strip_up_to_free CONFIDENCE). discriminate.
Qed.

(** X3.  Text put before the response is ignored when it holds no marker
    and is closed by a character that occurs in no marker, such as a space
    or a line break. *)
Theorem preamble_is_ignored (pre : string) (c : ascii) (raw : string) :
  marker_free pre = true -> PyText.off_marker c = true ->
  parse_llm_response (pre ++ String c raw) = parse_llm_response raw.
Proof. apply ParserMore.parse_skip. Qed.

Lemma preamble_is_ignored_witness :
  parse_llm_response
    ("Here is the query you asked for" ++ String "010"
       "SQL: SELECT 1; EXPLANATION: one CONFIDENCE: 1")
  = parse_llm_response "SQL: SELECT 1; EXPLANATION: one CONFIDENCE: 1".
Proof.
  apply (preamble_is_ignored "Here is the query you asked for" "010").
  - reflexivity.
  - reflexivity.
Defined.

(** X4.  Whitespace around the response changes nothing. *)
Theorem surrounding_whitespace_is_ignored (before after raw : string) :
  PyText.all_whitespace before = true -> PyText.all_whitespace after = true ->
  parse_llm_response (before ++ raw ++ after) = parse_llm_response raw.
Proof.
  intros B A. rewrite ParserMore.parse_leading by assumption.
  now apply ParserMore.parse_trailing.
Qed.

Lemma surrounding_whitespace_is_ignored_witness :
  parse_llm_response
    (String "010" " " ++ "SQL: SELECT 1; CONFIDENCE: 0.5" ++ String "010" "")
  = parse_llm_response "SQL: SELECT 1; CONFIDENCE: 0.5".
Proof.
  apply (surrounding_whitespace_is_ignored (String "010" " ")
           (String "010" "") "SQL: SELECT 1; CONFIDENCE: 0.5").
  - reflexivity.
  - reflexivity.
Defined.

(** ** The prompt for a schema that is not empty *)

Module PromptFacts.

Import PyStr PyStrFacts Schema LlmProcessor.

Lemma contains_append_l (sub s t : string) :
  contains sub s = true -> contains sub (s ++ t) = true.
Proof.
  intros H. apply contains_spec in H as (a & b & ->).
  rewrite !append_assoc. apply contains_app.
Qed.

Lemma contains_refl (s : string) : contains s s = true.
Proof. rewrite <- (append_nil_r s) at 2. apply contains_here. Qed.

(** Every element joined is in the joined text. *)
Lemma contains_join (sep x : string) (l : list string) :
  In x l -> contains x (join sep l) = true.
Proof.
  induction l as [|y l IH]; intros H; [destruct H|].
  destruct l as [|z l].
  - destruct H as [->|[]]. apply contains_refl.
  - change (join sep (y :: z :: l)) with (y ++ sep ++ join sep (z :: l)).
    destruct H as [->|H].
    + apply contains_here.
    + do 2 apply contains_append_r. now apply IH.
Qed.

Lemma format_schema_nonempty (e : string * table_info) (sch : schema) :
  format_schema_for_prompt (Some (e :: sch)) = join nl (map format_table (e :: sch)).
Proof. reflexivity. Qed.

Lemma format_schema_lists (sch : schema) (e : string * table_info) :
  In e sch -> contains (format_table e) (format_schema_for_prompt (Some sch)) = true.
Proof.
  intros H. destruct sch as [|e0 sch]; [destruct H|].
  rewrite format_schema_nonempty. apply contains_join. now apply in_map.
Qed.

Lemma prompt_holds_schema (q sub : string) (sch : option schema) :
  contains sub (format_schema_for_prompt sch) = true ->
  contains sub (generate_prompt q sch) = true.
Proof.
  intros H. unfold generate_prompt.
  do 4 apply contains_append_r. now apply contains_append_l.
Qed.

Lemma prompt_holds_question (q : string) (sch : option schema) :
  contains (dquote ++ q ++ dquote) (generate_prompt q sch) = true.
Proof.
  unfold generate_prompt. do 9 apply contains_append_r.
  assert (E : forall a b c r, a ++ b ++ c ++ r = (a ++ b ++ c) ++ r)
    by (intros; now rewrite !append_assoc).
  rewrite E. apply contains_here.
Qed.

(** Rewriting the nullability flags of a table. *)
Lemma format_table_ignores_nullable (f : column -> bool)
  (t : string) (info : table_info) :
  format_table
    (t, {| columns :=
             option_map
               (map (fun c => {| name := name c; type := type c; nullable := f c |}))
               (columns info) |})
  = format_table (t, info).
Proof.
  unfold format_table. cbn [columns].
  destruct (columns info) as [cols|]; cbn [option_map]; [|reflexivity].
  rewrite map_map. reflexivity.
Qed.

Lemma format_schema_map (g : string * table_info -> string * table_info)
  (sch : schema) :
  (forall e, format_table (g e) = format_table e) ->
  format_schema_for_prompt (Some (map g sch)) = format_schema_for_prompt (Some sch).
Proof.
  intros H. destruct sch as [|e sch]; [reflexivity|].
  cbn [map]. rewrite !format_schema_nonempty. f_equal.
  cbn [map]. rewrite H. f_equal. rewrite map_map. apply map_ext. exact H.
Qed.

End PromptFacts.

(** X5.  For every schema and question the prompt carries the question
    between double quotes; and every table of the schema has its line
    [Table: name (listing)] in the prompt, where the listing shows every
    column of the table as its name, a space and its type. *)
Theorem prompt_lists_every_table_and_column
  (question : string) (db_schema : Schema.schema)
  (table_name : string) (cols : list Schema.column) :
  In (table_name, {| Schema.columns := Some cols |}) db_schema ->
  contains (dquote ++ question ++ dquote)
    (generate_prompt question (Some db_schema)) = true
  /\ exists listing,
       contains ("Table: " ++ table_name ++ " (" ++ listing ++ ")")
         (generate_prompt question (Some db_schema)) = true
       /\ forall c, In c cols ->
            contains (Schema.name c ++ " " ++ Schema.type c) listing = true.
Proof.
  intros H. split; [apply PromptFacts.prompt_holds_question|].
  exists (join ", " (map (fun c => Schema.name c ++ " " ++ Schema.type c) cols)).
  split.
  - apply PromptFacts.prompt_holds_schema.
    apply (PromptFacts.format_schema_lists db_schema _ H).
  - intros c Hc. apply PromptFacts.contains_join.
    apply (in_map (fun c => Schema.name c ++ " " ++ Schema.type c)). exact Hc.
Qed.

Lemma prompt_lists_every_table_and_column_witness :
  exists listing,
    contains ("Table: cars (" ++ listing ++ ")")
      (generate_prompt "How many cars have more than 200 horsepower?"
         (Some DbSchema.get_hardcoded_schema)) = true
    /\ contains "hp integer" listing = true.
Proof.
  destruct (prompt_lists_every_table_and_column
              "How many cars have more than 200 horsepower?"
              DbSchema.get_hardcoded_schema "cars" _ (or_introl eq_refl))
    as (_ & listing & H1 & H2).
  exists listing. split; [exact H1|].
  apply (H2 (DbSchema.col "hp" "integer" true)).
  do 5 right. left. reflexivity.
Defined.

(** X6.  Nullability never reaches the prompt: rewriting the nullable flag
    of every column, in any way, leaves the prompt as it was. *)
Theorem prompt_ignores_nullability
  (question : string) (db_schema : Schema.schema) (f : Schema.column -> bool) :
  generate_prompt question
    (Some (map (fun e : string * Schema.table_info =>
                  (fst e,
                   {| Schema.columns :=
                        option_map
                          (map (fun c =>
                                  {| Schema.name := Schema.name c;
                                     Schema.type := Schema.type c;
                                     Schema.nullable := f c |}))
                          (Schema.columns (snd e)) |}))
             db_schema))
  = generate_prompt question (Some db_schema).
Proof.
  unfold generate_prompt. rewrite PromptFacts.format_schema_map; [reflexivity|].
  intros [t info]. apply PromptFacts.format_table_ignores_nullable.
Qed.

(** ** The schema provider on every path *)

Module ProviderFacts.

Import PyStr Schema Db DbSchema Trace Catalog.

Lemma bind_eq {A B} (m : M A) (k : A -> M B) (st st1 : state) (a : A) :
  m st = (Py.Return a, st1) -> bind m k st = k a st1.
Proof. intros H. unfold bind. now rewrite H. Qed.

Lemma bind_inv {A B} (m : M A) (k : A -> M B) (st st' : state) (b : B) :
  bind m k st = (Py.Return b, st') ->
  exists a st1, m st = (Py.Return a, st1) /\ k a st1 = (Py.Return b, st').
Proof.
  unfold bind. destruct (m st) as [[a|e] st1]; [|discriminate].
  intros H. now exists a, st1.
Qed.

(** A loop whose body always returns folds its step function. *)
Lemma for_each_fold {A S} (f : S -> A -> S) (l : list A) (body : A -> S -> M S) :
  (forall x, In x l -> forall acc st,
     exists st', body x acc st = (Py.Return (f acc x), st')) ->
  forall acc st,
    exists st', for_each l body acc st = (Py.Return (fold_left f l acc), st').
Proof.
  induction l as [|x l IH]; intros H acc st.
  - now exists st.
  - destruct (H x (or_introl eq_refl) acc st) as [st1 E].
    cbn [for_each fold_left]. rewrite (bind_eq _ _ _ _ _ E).
    apply IH. intros y Hy. apply H. now right.
Qed.

(** What a loop keeps true of its accumulator. *)
Lemma for_each_invariant {A S} (P : S -> Prop) (l : list A)
  (body : A -> S -> M S) :
  (forall x s st r st', P s -> body x s st = (Py.Return r, st') -> P r) ->
  forall acc st r st',
    P acc -> for_each l body acc st = (Py.Return r, st') -> P r.
Proof.
  intros H. induction l as [|x l IH]; intros acc st r st' Pa E.
  - cbn in E. now injection E as <- _.
  - cbn [for_each] in E. apply bind_inv in E as (a & st1 & E1 & E2).
    eapply IH; [|exact E2]. eapply H; eauto.
Qed.

Lemma setitem_keys {V} (k : string) (v : V) (d : list (string * V)) :
  map fst (setitem k v d) =
  if existsb (String.eqb k) (map fst d) then map fst d
  else (map fst d ++ [k])%list.
Proof.
  induction d as [|[k' v'] d IH]; [reflexivity|].
  cbn [setitem map fst existsb]. destruct (String.eqb k k'); [reflexivity|].
  cbn [map fst orb]. rewrite IH.
  destruct (existsb (String.eqb k) (map fst d)); reflexivity.
Qed.

Lemma existsb_eqb_In (k : string) (l : list string) :
  existsb (String.eqb k) l = true <-> In k l.
Proof.
  rewrite existsb_exists. split.
  - intros (x & H & E). apply String.eqb_eq in E. now subst.
  - intros H. exists k. split; [exact H | apply String.eqb_refl].
Qed.

Lemma setitem_NoDup {V} (k : string) (v : V) (d : list (string * V)) :
  NoDup (map fst d) -> NoDup (map fst (setitem k v d)).
Proof.
  intros H. rewrite setitem_keys.
  destruct (existsb (String.eqb k) (map fst d)) eqn:E; [exact H|].
  apply NoDup_app; [exact H | repeat constructor; intros [] |].
  intros a I [<-|[]]. apply existsb_eqb_In in I. congruence.
Qed.

Lemma setitem_Forall {V} (Q : V -> Prop) (k : string) (v : V)
  (d : list (string * V)) :
  Q v -> Forall (fun e => Q (snd e)) d ->
  Forall (fun e => Q (snd e)) (setitem k v d).
Proof.
  intros Hv. induction 1 as [|[k' v'] d Hx Hd IH]; cbn [setitem].
  - constructor; [exact Hv | constructor].
  - destruct (String.eqb k k'); constructor; auto.
Qed.

Lemma setitem_fresh {V} (k : string) (v : V) (d : list (string * V)) :
  ~ In k (map fst d) -> setitem k v d = (d ++ [(k, v)])%list.
Proof.
  induction d as [|[k' v'] d IH]; intros H; [reflexivity|].
  cbn [setitem]. destruct (String.eqb_spec k k') as [->|N].
  - destruct H. now left.
  - cbn. f_equal. apply IH. intros I. apply H. now right.
Qed.

(** Distinct keys set one after the other come out in that order. *)
Lemma fold_setitem_NoDup {V} (g : string -> V) (l : list string)
  (d : list (string * V)) :
  NoDup l -> (forall k, In k l -> ~ In k (map fst d)) ->
  fold_left (fun acc k => setitem k (g k) acc) l d
  = (d ++ map (fun k => (k, g k)) l)%list.
Proof.
  revert d; induction l as [|k l IH]; intros d N F.
  - cbn. now rewrite app_nil_r.
  - inversion N as [|? ? Nk Nl]; subst. cbn [fold_left map].
    rewrite (setitem_fresh k (g k) d) by (apply F; now left).
    rewrite IH; [now rewrite <- app_assoc | exact Nl |].
    intros x Hx. rewrite map_app, in_app_iff. cbn.
    intros [I|[E|[]]].
    + apply (F x); [now right | exact I].
    + subst. contradiction.
Qed.

Lemma fold_columns (l : list (string * string * string)) (acc : list column) :
  fold_left
    (fun (a : list column) (x : row) =>
       match x with
       | [n; t; nu] =>
           (a ++ [ {| name := n; type := t; nullable := String.eqb nu "YES" |} ])%list
       | _ => a
       end)
    (map row3 l) acc
  = (acc ++ map column_of l)%list.
Proof.
  revert acc; induction l as [|r l IH]; intros acc.
  - cbn. now rewrite app_nil_r.
  - cbn [map fold_left row3]. rewrite IH. now rewrite <- app_assoc.
Qed.

Lemma fold_tables {V} (g : string -> V) (l : list string) (d : list (string * V)) :
  fold_left
    (fun (a : list (string * V)) (x : row) =>
       match x with
       | [t] => setitem t (g t) a
       | _ => a
       end)
    (map row1 l) d
  = fold_left (fun a t => setitem t (g t) a) l d.
Proof.
  revert d; induction l as [|t l IH]; intros d; [reflexivity|].
  cbn [map fold_left row1]. apply IH.
Qed.

(** The [try] block when the catalog answers. *)
Lemma fetch_reads_catalog (srv : server) (url : string) (st : state)
  (tables : list string) (colrows : string -> list (string * string * string))
  (d0 d1 : list string) :
  on_connect srv url = None -> on_cursor srv = None ->
  (forall n,
     on_execute srv n tables_query None
     = Py.Return (Some {| description := d0; rows := map row1 tables |})) ->
  (forall n t, In t tables ->
     on_execute srv n (columns_query t) None
     = Py.Return (Some {| description := d1; rows := map row3 (colrows t) |})) ->
  exists st',
    fetch srv url st =
    (Py.Return
       (fold_left
          (fun a t => setitem t {| columns := Some (map column_of (colrows t)) |} a)
          tables []),
     st').
Proof.
  intros C K T R. unfold fetch.
  erewrite bind_eq; [|unfold connect; rewrite C; reflexivity].
  erewrite bind_eq; [|unfold cursor; rewrite K; reflexivity].
  erewrite bind_eq; [|unfold execute; rewrite T; reflexivity].
  erewrite bind_eq; [|reflexivity].
  cbn [rows pending].
  match goal with
  | |- context [bind (for_each (map row1 tables) ?body []) _ ?s] =>
      assert (L : exists st5,
                 for_each (map row1 tables) body [] s =
                 (Py.Return
                    (fold_left
                       (fun (a : schema) (x : row) =>
                          match x with
                          | [t] =>
                              setitem t
                                {| columns := Some (map column_of (colrows t)) |} a
                          | _ => a
                          end)
                       (map row1 tables) []), st5));
      [apply for_each_fold | destruct L as [st5 L]]
  end.
  - intros x Hx acc s. apply in_map_iff in Hx as (t & <- & Ht).
    cbn [row1 unpack1]. erewrite bind_eq; [|reflexivity].
    erewrite bind_eq; [|unfold execute; rewrite (R _ t Ht); reflexivity].
    erewrite bind_eq; [|reflexivity].
    cbn [rows pending].
    match goal with
    | |- context [bind (for_each (map row3 ?l) ?body []) _ ?s1] =>
        assert (L : exists st6,
                   for_each (map row3 l) body [] s1 =
                   (Py.Return
                      (fold_left
                         (fun (a : list column) (x : row) =>
                            match x with
                            | [n; ty; nu] =>
                                (a ++ [ {| name := n; type := ty;
                                           nullable := String.eqb nu "YES" |} ])%list
                            | _ => a
                            end)
                         (map row3 l) []), st6));
        [apply for_each_fold | destruct L as [st6 L]]
    end.
    + intros y Hy a s2. apply in_map_iff in Hy as (r & <- & _).
      exists s2. reflexivity.
    + erewrite bind_eq; [|exact L]. rewrite fold_columns. cbn [app].
      eexists. reflexivity.
  - erewrite bind_eq; [|exact L].
    rewrite (fold_tables
               (fun t => {| columns := Some (map column_of (colrows t)) |})).
    erewrite bind_eq; [|reflexivity]. eexists. reflexivity.
Qed.

Lemma fetch_well_keyed (srv : server) (url : string) (st st' : state) (s : schema) :
  fetch srv url st = (Py.Return s, st') -> well_keyed s.
Proof.
  unfold fetch. intros H.
  apply bind_inv in H as (? & s1 & _ & H).
  apply bind_inv in H as (? & s2 & _ & H).
  apply bind_inv in H as (? & s3 & _ & H).
  apply bind_inv in H as (tables & s4 & _ & H).
  apply bind_inv in H as (sch & s5 & L & H).
  apply bind_inv in H as (? & s6 & _ & H).
  injection H as <- _.
  revert L. apply for_each_invariant.
  - intros r acc s7 res s8 [N F] B.
    apply bind_inv in B as (t & s9 & _ & B).
    apply bind_inv in B as (? & s10 & _ & B).
    apply bind_inv in B as (cols & s11 & _ & B).
    apply bind_inv in B as (columns & s12 & _ & B).
    injection B as <- _. split.
    + now apply setitem_NoDup.
    + apply (setitem_Forall (fun i => exists c, Schema.columns i = Some c));
        [eexists; reflexivity | exact F].
  - split; constructor.
Qed.

Lemma emits_ret {A} (P : event -> Prop) (a : A) : emits P (ret a).
Proof. intros st. exists []. cbn. now rewrite app_nil_r. Qed.

Lemma emits_raise {A} (P : event -> Prop) (e : Py.exn) : emits P (@raise A e).
Proof. intros st. exists []. cbn. now rewrite app_nil_r. Qed.

Lemma emits_emit (P : event -> Prop) (ev : event) : P ev -> emits P (emit ev).
Proof. intros H st. exists [ev]. cbn. split; [reflexivity | now constructor]. Qed.

Lemma emits_bind {A B} (P : event -> Prop) (m : M A) (k : A -> M B) :
  emits P m -> (forall a, emits P (k a)) -> emits P (bind m k).
Proof.
  intros Hm Hk st. unfold bind. destruct (Hm st) as (e1 & E1 & F1).
  destruct (m st) as [[a|e] st1]; cbn [snd] in *.
  - destruct (Hk a st1) as (e2 & E2 & F2). exists (e1 ++ e2)%list.
    rewrite E2, E1, app_assoc. split; [reflexivity | now apply Forall_app].
  - now exists e1.
Qed.

Lemma emits_try_except {A} (P : event -> Prop) (m : M A) (h : Py.exn -> M A) :
  emits P m -> (forall e, emits P (h e)) -> emits P (try_except m h).
Proof.
  intros Hm Hh st. unfold try_except. destruct (Hm st) as (e1 & E1 & F1).
  destruct (m st) as [[a|e] st1]; cbn [snd] in *.
  - now exists e1.
  - destruct (Hh e st1) as (e2 & E2 & F2). exists (e1 ++ e2)%list.
    rewrite E2, E1, app_assoc. split; [reflexivity | now apply Forall_app].
Qed.

Lemma emits_for_each {A S} (P : event -> Prop) (l : list A)
  (body : A -> S -> M S) (acc : S) :
  (forall x s, emits P (body x s)) -> emits P (for_each l body acc).
Proof.
  intros H. revert acc; induction l as [|x l IH]; intros acc; cbn [for_each].
  - apply emits_ret.
  - apply emits_bind; [apply H | exact IH].
Qed.

Lemma emits_connect (P : event -> Prop) (srv : server) (dsn : string) :
  P (Connected dsn) -> emits P (connect srv dsn).
Proof.
  intros H. unfold connect. destruct (on_connect srv dsn).
  - apply emits_raise.
  - now apply emits_emit.
Qed.

Lemma emits_cursor (P : event -> Prop) (srv : server) :
  P CursorOpened -> emits P (cursor srv).
Proof.
  intros H. unfold cursor. destruct (on_cursor srv).
  - apply emits_raise.
  - now apply emits_emit.
Qed.

Lemma emits_execute (P : event -> Prop) (srv : server) (q : string)
  (vars : option params) :
  P (Executed q) -> emits P (execute srv q vars).
Proof.
  intros H st. exists [Executed q]. unfold execute.
  destruct (on_execute srv (statements st) q vars); cbn;
    (split; [reflexivity | now constructor]).
Qed.

Lemma emits_fetchall (P : event -> Prop) : emits P fetchall.
Proof.
  intros st. exists []. unfold fetchall.
  destruct (pending st); cbn; now rewrite app_nil_r.
Qed.

Lemma emits_unpack1 (P : event -> Prop) (r : row) : emits P (unpack1 r).
Proof.
  destruct r as [|a [|b r]]; (apply emits_ret || apply emits_raise).
Qed.

Lemma emits_unpack3 (P : event -> Prop) (r : row) : emits P (unpack3 r).
Proof.
  destruct r as [|a [|b [|c [|d r]]]]; (apply emits_ret || apply emits_raise).
Qed.

Lemma fetch_emits (srv : server) (url : string) :
  emits catalog_read (fetch srv url).
Proof.
  unfold fetch.
  apply emits_bind; [now apply emits_connect | intros _].
  apply emits_bind; [now apply emits_cursor | intros _].
  apply emits_bind; [apply emits_execute; now left | intros _].
  apply emits_bind; [apply emits_fetchall | intros tables].
  apply emits_bind.
  - apply emits_for_each. intros r sch.
    apply emits_bind; [apply emits_unpack1 | intros t].
    apply emits_bind; [apply emits_execute; right; now exists t | intros _].
    apply emits_bind; [apply emits_fetchall | intros cols].
    apply emits_bind; [|intros c; apply emits_ret].
    apply emits_for_each. intros c a.
    apply emits_bind; [apply emits_unpack3 | intros [[x y] z]; apply emits_ret].
  - intros sch. apply emits_bind; [now apply emits_emit | intros _; apply emits_ret].
Qed.

End ProviderFacts.

(** X7.  When the database is configured and reachable and the catalog
    answers both reads, the provider returns the tables in the order of the
    first read (their names being distinct), each with its columns in the
    order of the second read, a column being nullable exactly when the
    catalog says [YES]; and the connection it opened is closed. *)
Theorem schema_is_read_in_catalog_order
  (rt : runtime) (srv : server) (st : state) (url : string)
  (tables : list string) (colrows : string -> list (string * string * string))
  (d0 d1 : list string) :
  DATABASE_URL rt = Some url -> url <> "" ->
  on_connect srv url = None -> on_cursor srv = None ->
  (forall n,
     on_execute srv n tables_query None
     = Py.Return (Some {| description := d0; rows := map Catalog.row1 tables |})) ->
  (forall n t, In t tables ->
     on_execute srv n (columns_query t) None
     = Py.Return (Some {| description := d1;
                          rows := map Catalog.row3 (colrows t) |})) ->
  NoDup tables ->
  exists st',
    get_database_schema rt srv st =
    (Py.Return
       (map (fun t =>
               (t, {| Schema.columns :=
                        Some (map Catalog.column_of (colrows t)) |}))
          tables),
     st')
    /\ open_connections (trace st') = open_connections (trace st).
Proof.
  intros U N C K T R D.
  destruct (ProviderFacts.fetch_reads_catalog srv url st tables colrows d0 d1
              C K T R) as [st' F].
  rewrite ProviderFacts.fold_setitem_NoDup in F; [|exact D | intros k _ []].
  cbn [app] in F.
  exists st'. unfold get_database_schema. rewrite U.
  destruct url as [|c url]; [congruence|]. cbn [truthy negb].
  unfold try_except. rewrite F. split; [reflexivity|].
  pose proof (DbFacts.fetch_connections srv (String c url) st) as B.
  rewrite F in B. exact B.
Qed.

Lemma schema_is_read_in_catalog_order_witness :
  exists st',
    get_database_schema
      {| DATABASE_URL := Some "postgresql://db/lucidata";
         str_exception := fun _ => "" |}
      {| on_connect := fun _ => None;
         on_cursor := None;
         on_execute := fun _ q _ =>
           if String.eqb q tables_query
           then Py.Return (Some {| description := ["tablename"];
                                   rows := [["cars"]] |})
           else Py.Return (Some {| description :=
                                     ["column_name"; "data_type"; "is_nullable"];
                                   rows := [["id"; "integer"; "NO"];
                                            ["mpg"; "numeric"; "YES"]] |}) |}
      initial
    = (Py.Return
         [("cars",
           {| Schema.columns :=
                Some [ col "id" "integer" false; col "mpg" "numeric" true ] |})],
       st')
    /\ open_connections (trace st') = 0%Z.
Proof.
  apply (schema_is_read_in_catalog_order _ _ initial
           "postgresql://db/lucidata" ["cars"]
           (fun _ => [("id", "integer", "NO"); ("mpg", "numeric", "YES")])
           ["tablename"] ["column_name"; "data_type"; "is_nullable"]).
  - reflexivity.
  - discriminate.
  - reflexivity.
  - reflexivity.
  - intros n. reflexivity.
  - intros n t [<-|[]]. reflexivity.
  - repeat constructor. intros [].
Defined.

(** X8.  Whatever the database does, the schema the provider returns has
    distinct table names, and every table in it has its list of columns:
    the prompt builder never meets a table without one. *)
Theorem returned_schema_is_well_keyed (rt : runtime) (srv : server) (st : state) :
  exists s st',
    get_database_schema rt srv st = (Py.Return s, st')
    /\ NoDup (map fst s)
    /\ Forall (fun e => exists cols, Schema.columns (snd e) = Some cols) s.
Proof.
  assert (H : Catalog.well_keyed get_hardcoded_schema).
  { split; [repeat constructor; intros [] |].
    repeat constructor. eexists. reflexivity. }
  unfold get_database_schema.
  destruct (negb (truthy (DATABASE_URL rt))).
  - eexists _, _. split; [reflexivity | exact H].
  - unfold try_except.
    destruct (fetch srv _ st) as [[s|e] st1] eqn:F.
    + eexists _, _. split; [reflexivity|].
      exact (ProviderFacts.fetch_well_keyed _ _ _ _ _ F).
    + eexists _, _. split; [reflexivity | exact H].
Qed.

(** X9.  The provider calls [close] on its connection only when the body
    of its [try] runs to its end.  When the body fails after [connect] the
    provider returns without that call, and this one connection is closed
    by the freeing of the frame alone; on every other path nothing is left
    to it. *)
Theorem provider_closes_by_call_only_on_success
  (rt : runtime) (srv : server) (w : Frame.world) :
  Frame.freed (snd (Frame.call (get_database_schema rt srv) w)) =
  (Frame.freed w
   + match DATABASE_URL rt with
     | Some (String c u) =>
         match on_connect srv (String c u),
               fetch srv (String c u) (Frame.driver w) with
         | None, (Py.Raise _, _) => 1
         | _, _ => 0
         end
     | _ => 0
     end)%Z.
Proof.
  destruct (FrameFacts.provider_call rt srv w) as (s & st' & _ & ->).
  cbn [snd Frame.freed]. now rewrite FrameFacts.provider_unclosed.
Qed.

(** X10.  The provider only appends to the trace, and every statement it
    sends is its table-list query or its column query with a table name
    spliced in; it never closes the cursor it opens. *)
Theorem provider_runs_only_catalog_reads (rt : runtime) (srv : server) (st : state) :
  exists evs,
    trace (snd (get_database_schema rt srv st)) = (trace st ++ evs)%list
    /\ (forall q, In (Executed q) evs ->
          q = tables_query \/ exists t, q = columns_query t)
    /\ ~ In CursorClosed evs.
Proof.
  assert (E : Trace.emits Trace.catalog_read (get_database_schema rt srv)).
  { unfold get_database_schema.
    destruct (negb (truthy (DATABASE_URL rt))).
    - apply ProviderFacts.emits_bind;
        [now apply ProviderFacts.emits_emit | intros _; apply ProviderFacts.emits_ret].
    - apply ProviderFacts.emits_try_except; [apply ProviderFacts.fetch_emits|].
      intros e. apply ProviderFacts.emits_bind;
        [now apply ProviderFacts.emits_emit | intros _; apply ProviderFacts.emits_ret]. }
  destruct (E st) as (evs & T & F). exists evs. split; [exact T|].
  rewrite Forall_forall in F. split.
  - intros q I. exact (F _ I).
  - intros I. exact (F _ I).
Qed.

(** ** The query runner on every path *)

Module QueryRunnerMore.

Import PyStr Db QueryRunner Trace DbFacts ProviderFacts.
Local Open Scope Z_scope.

Lemma quiet_description_of : quiet description_of.
Proof. intros st. reflexivity. Qed.

Lemma quiet_run_statement (srv : server) (request : ExecuteQueryRequest) :
  quiet (run_statement srv request).
Proof.
  unfold run_statement.
  apply quiet_bind; [apply quiet_execute | intros _].
  apply quiet_bind; [apply quiet_fetchall | intros results].
  apply quiet_bind; [apply quiet_description_of | intros descr].
  apply quiet_ret.
Qed.

Lemma quiet_try_except_psycopg2 {A} (m : M A) (h : Py.exn -> M A) :
  quiet m -> (forall e, quiet (h e)) -> quiet (try_except_psycopg2 m h).
Proof.
  intros Hm Hh st. unfold try_except_psycopg2. specialize (Hm st).
  destruct (m st) as [[a|e] st1]; cbn [snd] in *; [exact Hm|].
  destruct (is_psycopg2_error e); [|exact Hm].
  rewrite (Hh e st1). exact Hm.
Qed.

(** The inner [try] with its [finally]: the connection is given back
    whatever the statement did. *)
Lemma finally_closes {A} (m : M A) (st : state) :
  quiet m ->
  open_connections
    (trace (snd (try_finally m (bind close_cursor (fun _ => close_connection)) st)))
  = open_connections (trace st) - 1.
Proof.
  intros Hm. unfold try_finally. specialize (Hm st).
  destruct (m st) as [r st1]. cbn [snd] in *. cbn.
  rewrite !open_connections_snoc. lia.
Qed.

Lemma emits_log (P : event -> Prop) (level message : string) :
  P (Logged level message) -> emits P (log level message).
Proof. apply emits_emit. Qed.

Lemma emits_description_of (P : event -> Prop) : emits P description_of.
Proof. intros st. exists []. cbn. now rewrite app_nil_r. Qed.

Lemma emits_try_except_psycopg2 {A} (P : event -> Prop) (m : M A)
  (h : Py.exn -> M A) :
  emits P m -> (forall e, emits P (h e)) -> emits P (try_except_psycopg2 m h).
Proof.
  intros Hm Hh st. unfold try_except_psycopg2. destruct (Hm st) as (e1 & E1 & F1).
  destruct (m st) as [[a|e] st1]; cbn [snd] in *; [now exists e1|].
  destruct (is_psycopg2_error e); [|now exists e1].
  destruct (Hh e st1) as (e2 & E2 & F2). exists (e1 ++ e2)%list.
  rewrite E2, E1, app_assoc. split; [reflexivity | now apply Forall_app].
Qed.

Lemma emits_try_finally {A} (P : event -> Prop) (m : M A) (f : M unit) :
  emits P m -> emits P f -> emits P (try_finally m f).
Proof.
  intros Hm Hf st. unfold try_finally. destruct (Hm st) as (e1 & E1 & F1).
  destruct (m st) as [r st1]; cbn [snd] in *.
  destruct (Hf st1) as (e2 & E2 & F2).
  destruct (f st1) as [[u|e] st2]; cbn [snd] in *;
    exists (e1 ++ e2)%list; rewrite E2, E1, app_assoc;
    (split; [reflexivity | now apply Forall_app]).
Qed.

End QueryRunnerMore.

(** X11.  When the database is configured and reachable and the statement
    returns a result set, the endpoint answers with one dict per row, a row
    count equal to the number of rows, the column names of the cursor and
    no execution time; the statement is run once, with the submitted
    parameters or an empty dict, and cursor and connection are closed. *)
Theorem execute_query_returns_rows
  (rt : runtime) (srv : server) (request : ExecuteQueryRequest) (st : state)
  (url : string) (rs : result_set) :
  DATABASE_URL rt = Some url -> url <> "" ->
  on_connect srv url = None -> on_cursor srv = None ->
  on_execute srv (statements st) (query request)
    (Some (match request_params request with Some p => p | None => [] end))
  = Py.Return (Some rs) ->
  exists st',
    execute_query rt srv request st =
    (Py.Return
       {| results := map (dict_row (description rs)) (rows rs);
          response_metadata :=
            {| row_count := List.length (rows rs);
               query_execution_time_ms := None;
               column_names := description rs |} |},
     st')
    /\ trace st' =
       (trace st ++
        [ Connected url; CursorOpened;
          Logged "INFO" ("Executing query: " ++ query request);
          Executed (query request); CursorClosed; ConnectionClosed ])%list.
Proof.
  intros U N C K X. unfold execute_query. rewrite U.
  destruct url as [|c url]; [congruence|]. cbn [truthy negb].
  assert (X' : on_execute srv (statements st) (query request)
                 (Some (match request_params request with
                        | Some (p :: ps) => p :: ps
                        | _ => []
                        end)) = Py.Return (Some rs)).
  { rewrite <- X. destruct (request_params request) as [[|p ps]|]; reflexivity. }
  unfold try_except, bind at 1. unfold connect. rewrite C. cbn [emit].
  unfold bind at 1. unfold cursor. rewrite K. cbn [emit].
  unfold bind at 1. cbn [log emit].
  unfold try_finally, try_except_psycopg2, run_statement.
  cbn [trace statements pending].
  unfold bind at 1. unfold execute. cbn [trace statements pending].
  rewrite X'. cbn. eexists. split.
  - rewrite length_map. destruct (description rs); reflexivity.
  - rewrite <- !app_assoc. reflexivity.
Qed.

Lemma execute_query_returns_rows_witness :
  exists st',
    execute_query
      {| DATABASE_URL := Some "postgresql://db/lucidata";
         str_exception := fun _ => "" |}
      {| on_connect := fun _ => None;
         on_cursor := None;
         on_execute := fun _ _ _ =>
           Py.Return (Some {| description := ["model"; "hp"];
                              rows := [["Mazda RX4"; "110"];
                                       ["Duster 360"; "245"]] |}) |}
      {| query := "SELECT model, hp FROM cars"; request_params := None |}
      initial
    = (Py.Return
         {| results := [ [("model", "Mazda RX4"); ("hp", "110")];
                         [("model", "Duster 360"); ("hp", "245")] ];
            response_metadata :=
              {| row_count := 2;
                 query_execution_time_ms := None;
                 column_names := ["model"; "hp"] |} |},
       st')
    /\ trace st' =
       [ Connected "postgresql://db/lucidata"; CursorOpened;
         Logged "INFO" "Executing query: SELECT model, hp FROM cars";
         Executed "SELECT model, hp FROM cars"; CursorClosed; ConnectionClosed ].
Proof.
  apply (execute_query_returns_rows _ _
           {| query := "SELECT model, hp FROM cars"; request_params := None |}
           initial "postgresql://db/lucidata"
           {| description := ["model"; "hp"];
              rows := [["Mazda RX4"; "110"]; ["Duster 360"; "245"]] |}).
  - reflexivity.
  - discriminate.
  - reflexivity.
  - reflexivity.
  - reflexivity.
Defined.

(** X12.  The endpoint either returns a body or raises an [HTTPException]
    whose status is 500: no failure, whatever its cause, is answered with
    another status. *)
Theorem execute_query_answers_200_or_500
  (rt : runtime) (srv : server) (request : ExecuteQueryRequest) (st : state) :
  (exists body, fst (execute_query rt srv request st) = Py.Return body)
  \/ (exists detail,
        fst (execute_query rt srv request st)
        = Py.Raise (Py.HTTPException 500 detail)).
Proof.
  unfold execute_query, try_except.
  match goal with
  | |- context [match ?m st with _ => _ end] => destruct (m st) as [[body|e] st1]
  end.
  - left. now exists body.
  - right. eexists. reflexivity.
Qed.

(** X13.  The endpoint gives back the connection it opens whenever the
    cursor could be created, whatever the statement does; a connection is
    left open exactly when [conn.cursor()] fails. *)
Theorem execute_query_connection_balance
  (rt : runtime) (srv : server) (request : ExecuteQueryRequest) (st : state) :
  open_connections (trace (snd (execute_query rt srv request st))) =
  (open_connections (trace st)
   + match DATABASE_URL rt with
     | Some (String c u) =>
         match on_connect srv (String c u), on_cursor srv with
         | None, Some _ => 1
         | _, _ => 0
         end
     | _ => 0
     end)%Z.
Proof.
  unfold execute_query.
  destruct (DATABASE_URL rt) as [[|c u]|]; cbn [truthy negb].
  - cbn. rewrite DbFacts.open_connections_snoc. lia.
  - unfold try_except, bind at 1. unfold connect.
    destruct (on_connect srv (String c u)) as [e|].
    + cbn. rewrite DbFacts.open_connections_snoc. lia.
    + cbn [emit]. unfold bind at 1. unfold cursor.
      destruct (on_cursor srv) as [e|].
      * cbn. rewrite !DbFacts.open_connections_snoc. lia.
      * cbn [emit]. unfold bind at 1. cbn [log emit].
        match goal with
        | |- context [try_finally ?m ?f ?s] =>
            pose proof (QueryRunnerMore.finally_closes m s) as F;
            destruct (try_finally m f s) as [[body|e] st1]
        end.
        -- cbn [snd] in *. rewrite F.
           ++ cbn. rewrite !DbFacts.open_connections_snoc. lia.
           ++ apply QueryRunnerMore.quiet_try_except_psycopg2;
                [apply QueryRunnerMore.quiet_run_statement | intros e].
              apply DbFacts.quiet_bind;
                [apply DbFacts.quiet_log | intros _; apply DbFacts.quiet_raise].
        -- cbn [snd] in *. cbn. rewrite DbFacts.open_connections_snoc, F.
           ++ cbn. rewrite !DbFacts.open_connections_snoc. lia.
           ++ apply QueryRunnerMore.quiet_try_except_psycopg2;
                [apply QueryRunnerMore.quiet_run_statement | intros e'].
              apply DbFacts.quiet_bind;
                [apply DbFacts.quiet_log | intros _; apply DbFacts.quiet_raise].
  - cbn. rewrite DbFacts.open_connections_snoc. lia.
Qed.

(** X14.  A statement that runs but returns no result set, such as an
    insert or an update, is answered with status 500: the statement is
    sent to the database, and reading its rows fails. *)
Theorem statement_without_rows_is_answered_500
  (rt : runtime) (srv : server) (request : ExecuteQueryRequest) (st : state)
  (url : string) :
  DATABASE_URL rt = Some url -> url <> "" ->
  on_connect srv url = None -> on_cursor srv = None ->
  (forall vars,
     on_execute srv (statements st) (query request) vars = Py.Return None) ->
  http_status (fst (execute_query rt srv request st)) = 500%Z
  /\ In (Executed (query request))
       (trace (snd (execute_query rt srv request st))).
Proof.
  intros U N C K X.
  assert (E : exists detail tail,
             execute_query rt srv request st =
             (Py.Raise (Py.HTTPException 500 detail),
              {| trace :=
                   (((((trace st ++ [Connected url]) ++ [CursorOpened])
                        ++ [Logged "INFO" ("Executing query: " ++ query request)])
                       ++ [Executed (query request)]) ++ tail)%list;
                 statements := S (statements st);
                 pending := None |})).
  { unfold execute_query. rewrite U.
    destruct url as [|c url]; [congruence|]. cbn [truthy negb].
    unfold try_except, bind at 1. unfold connect. rewrite C. cbn [emit].
    unfold bind at 1. unfold cursor. rewrite K. cbn [emit].
    unfold bind at 1. cbn [log emit].
    unfold try_finally, try_except_psycopg2, run_statement.
    cbn [trace statements pending].
    unfold bind at 1. unfold execute. cbn [trace statements pending].
    rewrite X. cbn. eexists _, [_; _; _; _].
    rewrite <- !app_assoc. reflexivity. }
  destruct E as (detail & tail & ->). cbn [fst snd trace http_status].
  split; [reflexivity|].
  apply in_or_app. left. apply in_or_app. right. now left.
Qed.

Lemma statement_without_rows_is_answered_500_witness :
  http_status
    (fst (execute_query
            {| DATABASE_URL := Some "postgresql://db/lucidata";
               str_exception := fun _ => "no results to fetch" |}
            {| on_connect := fun _ => None;
               on_cursor := None;
               on_execute := fun _ _ _ => Py.Return None |}
            {| query := "UPDATE cars SET hp = 0"; request_params := None |}
            initial)) = 500%Z.
Proof.
  refine (proj1 (statement_without_rows_is_answered_500 _ _
                   {| query := "UPDATE cars SET hp = 0"; request_params := None |}
                   initial "postgresql://db/lucidata" _ _ _ _ _)).
  - reflexivity.
  - discriminate.
  - reflexivity.
  - reflexivity.
  - intros vars. reflexivity.
Defined.

(** X15.  The endpoint only appends to the trace, and the only statement it
    ever sends to the database is the submitted one, as submitted. *)
Theorem execute_query_runs_only_the_submitted_statement
  (rt : runtime) (srv : server) (request : ExecuteQueryRequest) (st : state) :
  exists evs,
    trace (snd (execute_query rt srv request st)) = (trace st ++ evs)%list
    /\ forall q, In (Executed q) evs -> q = query request.
Proof.
  set (P := fun ev => match ev with
                      | Executed q => q = query request
                      | _ => True
                      end).
  assert (E : Trace.emits P (execute_query rt srv request)).
  { unfold execute_query. apply ProviderFacts.emits_try_except.
    - destruct (negb (truthy (DATABASE_URL rt))); [apply ProviderFacts.emits_raise|].
      apply ProviderFacts.emits_bind;
        [now apply ProviderFacts.emits_connect | intros _].
      apply ProviderFacts.emits_bind;
        [now apply ProviderFacts.emits_cursor | intros _].
      apply ProviderFacts.emits_bind;
        [now apply QueryRunnerMore.emits_log | intros _].
      apply QueryRunnerMore.emits_try_finally.
      + apply QueryRunnerMore.emits_try_except_psycopg2.
        * unfold run_statement.
          apply ProviderFacts.emits_bind;
            [now apply ProviderFacts.emits_execute | intros _].
          apply ProviderFacts.emits_bind;
            [apply ProviderFacts.emits_fetchall | intros r].
          apply ProviderFacts.emits_bind;
            [apply QueryRunnerMore.emits_description_of | intros d].
          apply ProviderFacts.emits_ret.
        * intros e. apply ProviderFacts.emits_bind;
            [now apply QueryRunnerMore.emits_log
            | intros _; apply ProviderFacts.emits_raise].
      + apply ProviderFacts.emits_bind;
          [now apply ProviderFacts.emits_emit
          | intros _; now apply ProviderFacts.emits_emit].
    - intros e. apply ProviderFacts.emits_bind;
        [now apply QueryRunnerMore.emits_log
        | intros _; apply ProviderFacts.emits_raise]. }
  destruct (E st) as (evs & T & F). exists evs. split; [exact T|].
  rewrite Forall_forall in F. intros q I. exact (F _ I).
Qed.

(** ** The request pipeline of the engine *)

Module EngineFacts.

Import PyStr Schema LlmProcessor Llm LlmEngine.

Lemma get_database_schema_returns (rt : Db.runtime) (srv : Db.server)
  (d : Db.state) :
  exists s d', DbSchema.get_database_schema rt srv d = (Py.Return s, d').
Proof.
  unfold DbSchema.get_database_schema.
  destruct (negb (truthy (Db.DATABASE_URL rt))); [eexists _, _; reflexivity|].
  unfold Db.try_except.
  destruct (DbSchema.fetch srv _ d) as [[s|e] d1]; eexists _, _; reflexivity.
Qed.

Lemma model_name_eq (LLM_MODEL : option string) (request : QueryRequest) :
  (if truthy (request_model request)
   then match request_model request with Some m => m | None => EmptyString end
   else getenv_default LLM_MODEL "gpt-4")
  = model (request_for LLM_MODEL request []).
Proof. cbn. destruct (request_model request) as [[|c m]|]; reflexivity. Qed.

(** The whole pipeline, step by step: the schema comes from the provider,
    one completion request is sent, and the answer is the parse of the
    first choice or a 500. *)
Lemma process_query_run (rt : Db.runtime) (LLM_MODEL : option string)
  (srv : Db.server) (api : client) (request : QueryRequest) (st : state)
  (s : schema) (d : Db.state) :
  DbSchema.get_database_schema rt srv (db st) = (Py.Return s, d) ->
  calls (snd (process_query rt LLM_MODEL srv api request st))
  = (calls st ++ [request_for LLM_MODEL request s])%list
  /\ match on_create api (List.length (calls st))
             (request_for LLM_MODEL request s) with
     | Py.Return (c :: _) =>
         fst (process_query rt LLM_MODEL srv api request st)
         = parse_llm_response c
     | _ =>
         exists detail,
           fst (process_query rt LLM_MODEL srv api request st)
           = Py.Raise (Py.HTTPException 500 detail)
     end.
Proof.
  intros G.
  assert (E : exists r d',
             process_query rt LLM_MODEL srv api request st
             = (r, {| db := d';
                      calls := (calls st ++ [request_for LLM_MODEL request s])%list |})
             /\ match on_create api (List.length (calls st))
                        (request_for LLM_MODEL request s) with
                | Py.Return (c :: _) => r = parse_llm_response c
                | _ => exists detail, r = Py.Raise (Py.HTTPException 500 detail)
                end).
  { unfold process_query, process_natural_language_query, call_llm_api.
    rewrite model_name_eq.
    unfold try_except, bind, lift_db, create. rewrite G. cbn [db calls].
    change {| model := model (request_for LLM_MODEL request []);
              messages := [system_message;
                           {| role := "user";
                              content := generate_prompt (request_query request)
                                           (Some s) |}];
              temperature := temperature_0_1;
              max_tokens := 500 |}
      with (request_for LLM_MODEL request s).
    destruct (on_create api (List.length (calls st))
                (request_for LLM_MODEL request s)) as [[|c cs]|e].
    - unfold lift_py, log, lift_db, Db.log, Db.emit, raise.
      cbn [Py.getitem nth_error db calls].
      eexists _, _. split; [reflexivity | eexists; reflexivity].
    - unfold lift_py, log, lift_db, Db.log, Db.emit, raise, ret.
      cbn [Py.getitem nth_error db calls].
      rewrite (ParserFacts.parse_llm_response_eq c).
      eexists _, _. split; reflexivity.
    - unfold lift_py, log, lift_db, Db.log, Db.emit, raise.
      cbn [db calls].
      eexists _, _. split; [reflexivity | eexists; reflexivity]. }
  destruct E as (r & d' & -> & H). cbn [fst snd calls].
  split; [reflexivity | exact H].
Qed.

End EngineFacts.

(** X16.  Whatever the database and the completion client do, a request to
    /process-query sends exactly one completion request: the system
    message and the prompt built from the question and the schema the
    provider returned, for the model the caller names, else the one of
    the environment, else gpt-4, at temperature 0.1 and 500 tokens. *)
Theorem process_query_sends_one_completion_request
  (rt : runtime) (LLM_MODEL : option string) (srv : server)
  (api : Llm.client) (request : LlmEngine.QueryRequest) (st : Llm.state) :
  exists s,
    fst (get_database_schema rt srv (Llm.db st)) = Py.Return s
    /\ Llm.calls (snd (LlmEngine.process_query rt LLM_MODEL srv api request st))
       = (Llm.calls st ++ [LlmEngine.request_for LLM_MODEL request s])%list.
Proof.
  destruct (EngineFacts.get_database_schema_returns rt srv (Llm.db st))
    as (s & d & G).
  exists s. rewrite G. split; [reflexivity|].
  exact (proj1 (EngineFacts.process_query_run rt LLM_MODEL srv api request st s d G)).
Qed.

(** X17.  The answer of /process-query is decided by the completion alone:
    when it has a first choice, the answer is the parse of that text, and
    no failure of the database changes that; when it has none, or the
    client raises, the answer is a 500. *)
Theorem process_query_answers_from_first_choice
  (rt : runtime) (LLM_MODEL : option string) (srv : server)
  (api : Llm.client) (request : LlmEngine.QueryRequest) (st : Llm.state) :
  exists s,
    fst (get_database_schema rt srv (Llm.db st)) = Py.Return s
    /\ match Llm.on_create api (List.length (Llm.calls st))
               (LlmEngine.request_for LLM_MODEL request s) with
       | Py.Return (c :: _) =>
           fst (LlmEngine.process_query rt LLM_MODEL srv api request st)
           = parse_llm_response c
       | _ =>
           exists detail,
             fst (LlmEngine.process_query rt LLM_MODEL srv api request st)
             = Py.Raise (Py.HTTPException 500 detail)
       end.
Proof.
  destruct (EngineFacts.get_database_schema_returns rt srv (Llm.db st))
    as (s & d & G).
  exists s. rewrite G. split; [reflexivity|].
  exact (proj2 (EngineFacts.process_query_run rt LLM_MODEL srv api request st s d G)).
Qed.

(** ** The formatter *)

Module FormatterFacts.

Import PyStr PyStrFacts Plot Formatter.

Lemma plot_bind_inv {A B} (m : M A) (k : A -> M B) (st st' : state) (b : B) :
  bind m k st = (Py.Return b, st') ->
  exists a st1, m st = (Py.Return a, st1) /\ k a st1 = (Py.Return b, st').
Proof.
  unfold bind. destruct (m st) as [[a|e] st1]; [|discriminate].
  intros H. now exists a, st1.
Qed.

(** The chart is a PNG data URI or nothing, and no exception leaves
    [generate_visualization]. *)
Lemma generate_visualization_returns (lib : library) (df : frame)
  (viz_type : string) (title : option string) (st : state) :
  exists r st',
    generate_visualization lib df viz_type title st = (Py.Return r, st')
    /\ (r = None
        \/ exists png, r = Some ("data:image/png;base64," ++ b64encode lib png)).
Proof.
  unfold generate_visualization, try_except.
  match goal with
  | |- context [match ?m st with _ => _ end] =>
      destruct (m st) as [[r|e] st1] eqn:E
  end.
  - exists r, st1. split; [reflexivity|].
    apply plot_bind_inv in E as (? & s1 & _ & E).
    apply plot_bind_inv in E as (drawn & s2 & _ & E).
    destruct (negb drawn).
    + injection E as <- _. now left.
    + apply plot_bind_inv in E as (? & s3 & _ & E).
      apply plot_bind_inv in E as (? & s4 & _ & E).
      apply plot_bind_inv in E as (png & s5 & _ & E).
      apply plot_bind_inv in E as (? & s6 & _ & E).
      injection E as <- _. right. now exists png.
  - eexists _, _. split; [reflexivity | now left].
Qed.

(** The three slots of the wrapper, each on its own. *)
Lemma wrapper_holds_table (title description : option string) (table : string) :
  contains table (html_wrapper title description table) = true.
Proof.
  unfold html_wrapper. do 15 apply contains_append_r. apply contains_here.
Qed.

Lemma wrapper_holds_title (t : string) (description : option string)
  (table : string) :
  t <> "" ->
  contains ("<h3>" ++ t ++ "</h3>") (html_wrapper (Some t) description table) = true.
Proof.
  intros N. unfold html_wrapper. destruct t as [|c t]; [congruence|].
  cbn [truthy text_of]. do 9 apply contains_append_r. apply contains_here.
Qed.

Lemma wrapper_holds_description (title : option string) (d table : string) :
  d <> "" ->
  contains ("<p>" ++ d ++ "</p>") (html_wrapper title (Some d) table) = true.
Proof.
  intros N. unfold html_wrapper. destruct d as [|c d]; [congruence|].
  cbn [truthy text_of]. do 12 apply contains_append_r. apply contains_here.
Qed.

End FormatterFacts.

(** X18.  No exception leaves [generate_visualization], whatever the
    plotting library does: the result is nothing, or a PNG data URI made of
    the fixed prefix and the base64 text of an image. *)
Theorem generate_visualization_never_raises
  (lib : Plot.library) (df : Plot.frame) (viz_type : string)
  (title : option string) (st : Plot.state) :
  exists r st',
    Formatter.generate_visualization lib df viz_type title st = (Py.Return r, st')
    /\ (r = None
        \/ exists png,
             r = Some ("data:image/png;base64," ++ Plot.b64encode lib png)).
Proof. apply FormatterFacts.generate_visualization_returns. Qed.

(** X19.  A chart that cannot be drawn never fails the request: when the
    frame is not empty and the renderers answer, /format returns the CSV
    text as text/csv for the format csv, the JSON text as application/json
    for json, and the wrapped HTML table as text/html for every other
    format name, the name being compared in lower case; without a
    visualization type no chart is drawn. *)
Theorem format_data_renders_whatever_the_chart_does
  (lib : Plot.library) (request : Formatter.FormatterRequest) (st : Plot.state)
  (df : Plot.frame) (csv json html : string) :
  Plot.DataFrame lib (Formatter.data request) = Py.Return df ->
  Plot.empty df = false ->
  Plot.to_csv df = Py.Return csv -> Plot.to_json df = Py.Return json ->
  Plot.to_html df = Py.Return html ->
  exists chart st',
    Formatter.format_data lib request st =
    (Py.Return
       {| Formatter.formatted_data :=
            if String.eqb (Formatter.lower (Formatter.format request)) "csv"
            then csv
            else if String.eqb (Formatter.lower (Formatter.format request)) "json"
            then json
            else Formatter.html_wrapper (Formatter.title request)
                   (Formatter.description request) html;
          Formatter.visualization := chart;
          Formatter.content_type :=
            if String.eqb (Formatter.lower (Formatter.format request)) "csv"
            then "text/csv"
            else if String.eqb (Formatter.lower (Formatter.format request)) "json"
            then "application/json"
            else "text/html" |},
     st')
    /\ (truthy (Formatter.visualization_type request) = false ->
        chart = None /\ st' = st).
Proof.
  intros D E C J H.
  unfold Formatter.format_data, Plot.try_except, Plot.bind, Plot.lift.
  rewrite D, E, C, J, H.
  destruct (String.eqb (Formatter.lower (Formatter.format request)) "csv");
    [|destruct (String.eqb (Formatter.lower (Formatter.format request)) "json")];
    unfold Plot.ret; cbv beta iota;
    (destruct (truthy (Formatter.visualization_type request));
     [ destruct (FormatterFacts.generate_visualization_returns lib df
                   (Formatter.text_of (Formatter.visualization_type request))
                   (Formatter.title request) st) as (r & st' & -> & _);
       exists r, st'; split; [reflexivity | discriminate]
     | exists None, st; split; [reflexivity | intros _; split; reflexivity] ]).
Qed.

Lemma format_data_renders_whatever_the_chart_does_witness :
  exists chart st',
    Formatter.format_data
      {| Plot.DataFrame := fun _ =>
           Py.Return {| Plot.empty := false;
                        Plot.columns := ["model"; "hp"];
                        Plot.numeric_columns := Py.Return ["hp"];
                        Plot.to_csv := Py.Return "model,hp";
                        Plot.to_json := Py.Return "[]";
                        Plot.to_html := Py.Return "<table></table>" |};
         Plot.on_call := fun _ _ => Some (Py.OtherException "no display");
         Plot.image := fun _ => "";
         Plot.b64encode := fun s => s;
         Plot.str_exception := fun _ => "no display" |}
      {| Formatter.data := [[("model", "Mazda RX4"); ("hp", "110")]];
         Formatter.format := "CSV";
         Formatter.visualization_type := Some "bar";
         Formatter.title := None;
         Formatter.description := None |}
      Plot.initial
    = (Py.Return {| Formatter.formatted_data := "model,hp";
                    Formatter.visualization := chart;
                    Formatter.content_type := "text/csv" |}, st').
Proof.
  destruct (format_data_renders_whatever_the_chart_does
              {| Plot.DataFrame := fun _ =>
                   Py.Return {| Plot.empty := false;
                                Plot.columns := ["model"; "hp"];
                                Plot.numeric_columns := Py.Return ["hp"];
                                Plot.to_csv := Py.Return "model,hp";
                                Plot.to_json := Py.Return "[]";
                                Plot.to_html := Py.Return "<table></table>" |};
                 Plot.on_call := fun _ _ => Some (Py.OtherException "no display");
                 Plot.image := fun _ => "";
                 Plot.b64encode := fun s => s;
                 Plot.str_exception := fun _ => "no display" |}
              {| Formatter.data := [[("model", "Mazda RX4"); ("hp", "110")]];
                 Formatter.format := "CSV";
                 Formatter.visualization_type := Some "bar";
                 Formatter.title := None;
                 Formatter.description := None |}
              Plot.initial _ "model,hp" "[]" "<table></table>"
              eq_refl eq_refl eq_refl eq_refl eq_refl)
    as (chart & st' & E & _).
  exists chart, st'. exact E.
Defined.

(** X20.  When the frame built from the data is empty, /format answers the
    plain text [No data to format] with no chart, whatever format and
    visualization are asked for: no renderer is read, no plotting call is
    made and nothing is logged. *)
Theorem empty_data_is_answered_in_plain_text
  (lib : Plot.library) (request : Formatter.FormatterRequest) (st : Plot.state)
  (df : Plot.frame) :
  Plot.DataFrame lib (Formatter.data request) = Py.Return df ->
  Plot.empty df = true ->
  Formatter.format_data lib request st =
  (Py.Return {| Formatter.formatted_data := "No data to format";
                Formatter.visualization := None;
                Formatter.content_type := "text/plain" |}, st).
Proof.
  intros D E.
  unfold Formatter.format_data, Plot.try_except, Plot.bind, Plot.lift.
  rewrite D, E. reflexivity.
Qed.

Lemma empty_data_is_answered_in_plain_text_witness :
  Formatter.format_data
    {| Plot.DataFrame := fun _ =>
         Py.Return {| Plot.empty := true;
                      Plot.columns := [];
                      Plot.numeric_columns := Py.Return [];
                      Plot.to_csv := Py.Raise (Py.OtherException "unused");
                      Plot.to_json := Py.Raise (Py.OtherException "unused");
                      Plot.to_html := Py.Raise (Py.OtherException "unused") |};
       Plot.on_call := fun _ _ => None;
       Plot.image := fun _ => "";
       Plot.b64encode := fun s => s;
       Plot.str_exception := fun _ => "" |}
    {| Formatter.data := [];
       Formatter.format := "json";
       Formatter.visualization_type := Some "pie";
       Formatter.title := Some "Cars";
       Formatter.description := None |}
    Plot.initial
  = (Py.Return {| Formatter.formatted_data := "No data to format";
                  Formatter.visualization := None;
                  Formatter.content_type := "text/plain" |}, Plot.initial).
Proof.
  apply (empty_data_is_answered_in_plain_text _ _ Plot.initial
           {| Plot.empty := true;
              Plot.columns := [];
              Plot.numeric_columns := Py.Return [];
              Plot.to_csv := Py.Raise (Py.OtherException "unused");
              Plot.to_json := Py.Raise (Py.OtherException "unused");
              Plot.to_html := Py.Raise (Py.OtherException "unused") |}).
  - reflexivity.
  - reflexivity.
Defined.

(** X21.  In the HTML answer the title and the description are spliced in
    as they are, without escaping, each on its own: the answer is the
    wrapper around the table as the renderer gave it, which is always in
    it; a title that is not empty stands between [<h3>] and [</h3>],
    whatever the description; a description that is not empty stands
    between [<p>] and [</p>], whatever the title. *)
Theorem html_answer_splices_title_and_description
  (lib : Plot.library) (request : Formatter.FormatterRequest) (st : Plot.state)
  (df : Plot.frame) (html : string) :
  Plot.DataFrame lib (Formatter.data request) = Py.Return df ->
  Plot.empty df = false ->
  String.eqb (Formatter.lower (Formatter.format request)) "csv" = false ->
  String.eqb (Formatter.lower (Formatter.format request)) "json" = false ->
  Plot.to_html df = Py.Return html ->
  exists body st',
    Formatter.format_data lib request st = (Py.Return body, st')
    /\ Formatter.content_type body = "text/html"
    /\ Formatter.formatted_data body =
       Formatter.html_wrapper (Formatter.title request)
         (Formatter.description request) html
    /\ contains html (Formatter.formatted_data body) = true
    /\ (forall t,
          Formatter.title request = Some t -> t <> "" ->
          contains ("<h3>" ++ t ++ "</h3>") (Formatter.formatted_data body) = true)
    /\ (forall d,
          Formatter.description request = Some d -> d <> "" ->
          contains ("<p>" ++ d ++ "</p>") (Formatter.formatted_data body) = true).
Proof.
  intros D E F1 F2 H.
  assert (W : forall body,
             Formatter.formatted_data body =
             Formatter.html_wrapper (Formatter.title request)
               (Formatter.description request) html ->
             Formatter.formatted_data body =
             Formatter.html_wrapper (Formatter.title request)
               (Formatter.description request) html
             /\ contains html (Formatter.formatted_data body) = true
             /\ (forall t,
                   Formatter.title request = Some t -> t <> "" ->
                   contains ("<h3>" ++ t ++ "</h3>")
                     (Formatter.formatted_data body) = true)
             /\ (forall d,
                   Formatter.description request = Some d -> d <> "" ->
                   contains ("<p>" ++ d ++ "</p>")
                     (Formatter.formatted_data body) = true)).
  { intros body B. rewrite B. split; [reflexivity|]. split; [|split].
    - apply FormatterFacts.wrapper_holds_table.
    - intros t T N. rewrite T. now apply FormatterFacts.wrapper_holds_title.
    - intros d S N. rewrite S. now apply FormatterFacts.wrapper_holds_description. }
  unfold Formatter.format_data, Plot.try_except, Plot.bind, Plot.lift.
  rewrite D, E, F1, F2, H. unfold Plot.ret. cbv beta iota.
  destruct (truthy (Formatter.visualization_type request)).
  - destruct (FormatterFacts.generate_visualization_returns lib df
                (Formatter.text_of (Formatter.visualization_type request))
                (Formatter.title request) st) as (r & st' & -> & _).
    eexists _, _. split; [reflexivity|]. split; [reflexivity|].
    apply W. reflexivity.
  - eexists _, _. split; [reflexivity|]. split; [reflexivity|].
    apply W. reflexivity.
Qed.

Lemma html_answer_splices_title_and_description_witness :
  exists body st',
    Formatter.format_data
      {| Plot.DataFrame := fun _ =>
           Py.Return {| Plot.empty := false;
                        Plot.columns := ["hp"];
                        Plot.numeric_columns := Py.Return ["hp"];
                        Plot.to_csv := Py.Return "hp";
                        Plot.to_json := Py.Return "[]";
                        Plot.to_html := Py.Return "<table></table>" |};
         Plot.on_call := fun _ _ => None;
         Plot.image := fun _ => "";
         Plot.b64encode := fun s => s;
         Plot.str_exception := fun _ => "" |}
      {| Formatter.data := [[("hp", "110")]];
         Formatter.format := "html";
         Formatter.visualization_type := None;
         Formatter.title := Some "<script>alert(1)</script>";
         Formatter.description := None |}
      Plot.initial
    = (Py.Return body, st')
    /\ contains "<h3><script>alert(1)</script></h3>"
         (Formatter.formatted_data body) = true
    /\ contains "<table></table>" (Formatter.formatted_data body) = true.
Proof.
  destruct (html_answer_splices_title_and_description
              {| Plot.DataFrame := fun _ =>
                   Py.Return {| Plot.empty := false;
                                Plot.columns := ["hp"];
                                Plot.numeric_columns := Py.Return ["hp"];
                                Plot.to_csv := Py.Return "hp";
                                Plot.to_json := Py.Return "[]";
                                Plot.to_html := Py.Return "<table></table>" |};
                 Plot.on_call := fun _ _ => None;
                 Plot.image := fun _ => "";
                 Plot.b64encode := fun s => s;
                 Plot.str_exception := fun _ => "" |}
              {| Formatter.data := [[("hp", "110")]];
                 Formatter.format := "html";
                 Formatter.visualization_type := None;
                 Formatter.title := Some "<script>alert(1)</script>";
                 Formatter.description := None |}
              Plot.initial _ "<table></table>"
              eq_refl eq_refl eq_refl eq_refl eq_refl)
    as (body & st' & E & _ & _ & HT & HH & _).
  exists body, st'. split; [exact E|]. split; [|exact HT].
  apply (HH "<script>alert(1)</script>"); [reflexivity | discriminate].
Defined.
